(** * Runtime delegates of the functions deployer: discovery, supervision, secrets

    A shallow embedding of
    - [src/deploy/functions/runtimes/node/index.ts]  (module [Node]),
    - [src/deploy/functions/runtimes/dart/index.ts]  (module [Dart]),
    - [src/deploy/functions/ensure.ts]               (module [Ensure]).

    Asynchronous functions are computations in the monad [Run]: they thread
    the mutable objects of the program (child-process handles, armed timers,
    the cached fields of the delegates), record every call that leaves the
    function in a trace, and end in the state of the returned promise, which
    may be that it never settles.  What the outside world answers during one
    call (file system, network, child processes, imported modules that are
    not part of these files) is read from a [World]; the pure functions of
    imported packages ([path.join], [JSON.stringify], [semver]) are the
    methods of the class [Platform].

    Conventions.
    - A child process is what [child_process.ChildProcess] shows of it:
      [killed] is set by a [kill()] that delivered its signal, [exitCode]
      stays null for a process that a signal terminated, and a process that
      has terminated neither takes a signal nor emits a further [exit].
    - The [data] listeners on the output of the children only log what a
      child prints; they are left out, as are the empty [build] methods, the
      analytics call [track] and the [exit] option of a [FirebaseError].
    - What the other modules of the repository answer to [tryCreateDelegate],
      [validate] and [ensureCloudBuildEnabled] is read from an [Imports]; the
      heap holds the private fields of the delegate at hand, which its
      construction initialises.
    - Objects used as records of sets ([ensure.ts]) are lists of their own
      properties in insertion order. *)

From Stdlib Require Import Ascii.
From stdpp Require Import gmap strings list pretty.

Open Scope string_scope.
Open Scope list_scope.
Open Scope nat_scope.

(** ** Promises and errors *)

Inductive JsError : Type :=
| FirebaseError (message : string)
| TypeError (message : string)
| SystemError (code : string).

(** The state a promise ends in. [Pending] is a promise that never settles. *)
Inductive Settled (A : Type) : Type :=
| Resolved (a : A)
| Rejected (e : JsError)
| Pending.

Arguments Resolved {A} a.
Arguments Rejected {A} e.
Arguments Pending {A}.

(** ** Child processes as seen through [child_process.ChildProcess] *)

Inductive ExitStatus : Type :=
| ExitCode (code : Z)
| ExitSignal (signal : string).

(** [running]: the operating-system process has not terminated, so a signal
    can still be delivered and an [exit] event is still to come.  [killed],
    [exitCode] and [signalCode] are the properties of the same names:
    [killed] records that [kill()] delivered a signal, and a process that a
    signal terminated keeps [exitCode = null]. *)
Record ChildProcess : Type := {
  running : bool;
  killed : bool;
  exitCode : option Z;
  signalCode : option string }.

Definition fresh_process : ChildProcess :=
  {| running := true; killed := false; exitCode := None; signalCode := None |}.

(** The [exit] event: the handle is closed and one of the two codes is set. *)
Definition terminate (st : ExitStatus) (p : ChildProcess) : ChildProcess :=
  match st with
  | ExitCode c =>
      {| running := false; killed := killed p;
         exitCode := Some c; signalCode := signalCode p |}
  | ExitSignal s =>
      {| running := false; killed := killed p;
         exitCode := exitCode p; signalCode := Some s |}
  end.

(** The [code] argument handed to an [exit] listener. *)
Definition exit_listener_code (st : ExitStatus) : option Z :=
  match st with ExitCode c => Some c | ExitSignal _ => None end.

(** [NodeJS.ProcessEnv]: a key may be present with the value [undefined]. *)
Abbreviation ProcessEnv := (gmap string (option string)).

(** The options object of [spawn]; [spawn_env = None] is an options object
    without an [env] key. *)
Record SpawnOptions : Type := {
  spawn_cwd : string;
  spawn_env : option ProcessEnv;
  spawn_stdio : list string }.

(** What the child sees: given [env], its defined entries; without [env],
    [child_process.spawn] hands over [process.env]. *)
Definition child_environment (host : gmap string string) (o : SpawnOptions)
  : gmap string string :=
  match spawn_env o with
  | Some e => omap id e
  | None => host
  end.

(** ** Build descriptions, configuration *)

Record Build : Type := { endpoints : list string }.

(** [backend.RuntimeConfigValues], key by key with the JSON text of the value;
    [backend.EnvironmentVariables] is a string-to-string record. *)
Abbreviation RuntimeConfigValues := (list (string * string)).
Abbreviation EnvironmentVariables := (gmap string string).

(** ** Imported library functions that are pure *)

Class Platform : Type := {
  path_join : list string → string;
  JSON_stringify : RuntimeConfigValues → string;
  semver_valid : string → option string;
  semver_lt : string → string → bool;
  semver_valid_nonempty : ∀ v s, semver_valid v = Some s → s ≠ "" }.

(** ** Trace of calls leaving the modelled functions *)

Inductive Event : Type :=
| EvDebug (message : string)
| EvWarning (label message : string)
| EvBullet (label message : string)
| EvSuccess (label message : string)
| EvGetFunctionsSDKVersion (sourceDir : string)
| EvParseTriggers (projectId sourceDir runtime : string)
| EvDetectFromYaml (directory projectId runtime : string)
| EvGetPort
| EvRequireResolve (request : string) (paths : list string)
| EvSpawn (pid : nat) (command : string) (args : list string) (opts : SpawnOptions)
| EvDetectFromPort (port : N) (projectId runtime : string)
| EvTeardown
| EvFetch (url : string)
| EvSetTimeout (ms : N)
| EvKill (pid : nat) (signal : string)
| EvEnsureServiceAgentRole
    (secret projectId : string) (serviceAccounts : list string) (role : string).

(** ** The mutable objects *)

(** The callback of the timer armed by the node teardown:
    [if (!childProcess.killed) childProcess.kill("SIGKILL")]. *)
Record Timer : Type := { timer_ms : N; timer_target : nat }.

Record Heap : Type := {
  procs : list ChildProcess;        (* handles, in spawn order *)
  timers : list Timer;              (* armed, not yet fired *)
  _sdkVersion : option string;      (* node Delegate._sdkVersion *)
  _bin : string }.                  (* dart Delegate._bin *)

Definition empty_heap : Heap :=
  {| procs := []; timers := []; _sdkVersion := None; _bin := "" |}.

Definition with_procs (ps : list ChildProcess) (h : Heap) : Heap :=
  {| procs := ps; timers := timers h; _sdkVersion := _sdkVersion h; _bin := _bin h |}.

Definition with_timers (ts : list Timer) (h : Heap) : Heap :=
  {| procs := procs h; timers := ts; _sdkVersion := _sdkVersion h; _bin := _bin h |}.

Definition with_sdkVersion (v : option string) (h : Heap) : Heap :=
  {| procs := procs h; timers := timers h; _sdkVersion := v; _bin := _bin h |}.

Definition with_bin (b : string) (h : Heap) : Heap :=
  {| procs := procs h; timers := timers h; _sdkVersion := _sdkVersion h; _bin := b |}.

(** ** What the environment does during one call *)

(** How a running server child answers the quit request. *)
Inductive ChildReaction : Type :=
| ReactExit (st : ExitStatus)      (* emits [exit] before the timer fires *)
| ReactError (e : JsError)         (* emits [error] first *)
| ReactNothing.                    (* emits nothing until signalled *)

(** What the generator child emits first. *)
Inductive GeneratorRun : Type :=
| GenExit (st : ExitStatus)
| GenError (e : JsError)
| GenSilent.

Record World : Type := {
  process_env : gmap string string;
  getFunctionsSDKVersion : string → option string;
  parseTriggers_discoverBuild : Settled Build;
  detectFromYaml : Settled (option Build);
  detectFromYaml_again : Settled (option Build);
  getPort : Settled N;
  require_resolve : string → list string → string + JsError;
  detectFromPort : N → Settled Build;
  child_during_probe : option ExitStatus;
  fetch : string → Settled unit;
  child_after_quit : ChildReaction;
  build_runner : GeneratorRun;
  exits_during_grace : nat → option ExitStatus;
  exits_eventually : nat → option ExitStatus;
  ensureServiceAgentRole : string → list string → Settled unit }.

(** ** Modules of the repository that these files import *)

(** What [fs], [path], [./validate], [./versioning],
    [./parseRuntimeAndValidateSDK], [../supported], [../../error] and
    [../../ensureApiEnabled] answer.  A function that can throw answers with
    its error; [error_status e] is [e.context?.body?.error?.status]. *)
Record Imports : Type := {
  fs_exists : string → Settled bool;
  fs_access : string → Settled unit;
  path_relative : string → string → string;
  getRuntimeChoice : string → option string → string + JsError;
  checkFunctionsSDKVersion : string → option JsError;
  packageJsonIsValid : string → string → string → option JsError;
  supported_latest : string → string;
  supported_isRuntime : string → bool;
  supported_runtimeIsLanguage : string → string → bool;
  error_message : JsError → string;
  isBillingError : JsError → bool;
  error_status : JsError → option string;
  ensure : string → string → string → Settled unit }.

(** [runtimes.DelegateContext] *)
Record DelegateContext : Type := {
  context_projectId : string;
  context_projectDir : string;
  context_sourceDir : string;
  context_runtime : option string }.

(** ** The monad of asynchronous computations *)

Definition Run (A : Type) : Type := Heap → Heap * list Event * Settled A.

Definition run_ret {A} (a : A) : Run A := λ h, (h, [], Resolved a).

Definition run_bind {A B} (f : A → Run B) (m : Run A) : Run B :=
  λ h,
    match m h with
    | (h1, t1, Resolved a) =>
        match f a h1 with (h2, t2, r) => (h2, t1 ++ t2, r) end
    | (h1, t1, Rejected e) => (h1, t1, Rejected e)
    | (h1, t1, Pending) => (h1, t1, Pending)
    end.

#[global] Instance Run_ret : MRet Run := @run_ret.
#[global] Instance Run_bind : MBind Run := @run_bind.

Definition emit (ev : Event) : Run unit := λ h, (h, [ev], Resolved tt).
Definition throw {A} (e : JsError) : Run A := λ h, (h, [], Rejected e).
Definition await {A} (p : Settled A) : Run A := λ h, (h, [], p).
Definition get_heap : Run Heap := λ h, (h, [], Resolved h).
Definition update (f : Heap → Heap) : Run unit := λ h, (f h, [], Resolved tt).

(** [try { body } finally { fin }]: [fin] runs once [body] has settled; what
    [fin] throws replaces the outcome of [body]. *)
Definition try_finally {A} (body : Run A) (fin : Run unit) : Run A :=
  λ h,
    match body h with
    | (h1, t1, Pending) => (h1, t1, Pending)
    | (h1, t1, r) =>
        match fin h1 with
        | (h2, t2, Resolved _) => (h2, t1 ++ t2, r)
        | (h2, t2, Rejected e) => (h2, t1 ++ t2, Rejected e)
        | (h2, t2, Pending) => (h2, t1 ++ t2, Pending)
        end
    end.

(** [try { body } catch (e) { handler(e) }] *)
Definition try_catch {A} (body : Run A) (handler : JsError → Run A) : Run A :=
  λ h,
    match body h with
    | (h1, t1, Rejected e) =>
        match handler e h1 with (h2, t2, r) => (h2, t1 ++ t2, r) end
    | settled => settled
    end.

(** [Promise.all] of two promises whose executors have both run: it resolves
    when both do. *)
Definition promise_all2 (m1 m2 : Run unit) : Run unit :=
  λ h,
    match m1 h with
    | (h1, t1, r1) =>
        match m2 h1 with
        | (h2, t2, r2) =>
            (h2, t1 ++ t2,
             match r1, r2 with
             | Resolved _, Resolved _ => Resolved tt
             | Rejected e, _ => Rejected e
             | _, Rejected e => Rejected e
             | _, _ => Pending
             end)
        end
    end.


Definition heap_of {A} (x : Heap * list Event * Settled A) : Heap := x.1.1.
Definition trace_of {A} (x : Heap * list Event * Settled A) : list Event := x.1.2.
Definition settled_of {A} (x : Heap * list Event * Settled A) : Settled A := x.2.

(** ** Handles *)

Definition proc_at (pid : nat) (h : Heap) : ChildProcess :=
  default fresh_process (procs h !! pid).

Definition set_proc (pid : nat) (p : ChildProcess) : Run unit :=
  update (λ h, with_procs (<[pid := p]> (procs h)) h).

(** [spawn(command, args, options)]: a new handle. *)
Definition spawn (command : string) (args : list string) (o : SpawnOptions) : Run nat :=
  h ← get_heap;
  let pid := length (procs h) in
  update (with_procs (procs h ++ [fresh_process]));;
  emit (EvSpawn pid command args o);;
  mret pid.

(** [proc.kill(signal)]: delivered, and [killed] set, only while the handle
    is open. *)
Definition kill (pid : nat) (signal : string) : Run bool :=
  emit (EvKill pid signal);;
  h ← get_heap;
  let p := proc_at pid h in
  if running p then
    set_proc pid {| running := running p; killed := true;
                    exitCode := exitCode p; signalCode := signalCode p |};;
    mret true
  else mret false.

(** The environment lets a running process terminate. *)
Definition let_exit (pid : nat) (o : option ExitStatus) : Run unit :=
  h ← get_heap;
  let p := proc_at pid h in
  match o with
  | Some st => if running p then set_proc pid (terminate st p) else mret tt
  | None => mret tt
  end.

(** Armed timers fire when time passes: each runs the callback
    [if (!childProcess.killed) childProcess.kill("SIGKILL")] and reports
    whether a signal was delivered. *)
Definition fire (t : Timer) : Run bool :=
  h ← get_heap;
  if negb (killed (proc_at (timer_target t) h))
  then kill (timer_target t) "SIGKILL"
  else mret false.

Fixpoint fire_all (ts : list Timer) : Run unit :=
  match ts with
  | [] => mret tt
  | t :: ts' => fire t;; fire_all ts'
  end.

Definition flush_timers : Run unit :=
  h ← get_heap;
  update (with_timers []);;
  fire_all (timers h).

(** ** Reading traces *)

Definition count (p : Event → bool) (t : list Event) : nat :=
  length (List.filter p t).

Definition is_warning (ev : Event) : bool :=
  match ev with EvWarning _ _ => true | _ => false end.
Definition is_parseTriggers (ev : Event) : bool :=
  match ev with EvParseTriggers _ _ _ => true | _ => false end.
Definition is_spawn (ev : Event) : bool :=
  match ev with EvSpawn _ _ _ _ => true | _ => false end.
Definition is_getPort (ev : Event) : bool :=
  match ev with EvGetPort => true | _ => false end.
Definition is_teardown (ev : Event) : bool :=
  match ev with EvTeardown => true | _ => false end.
Definition is_probe (ev : Event) : bool :=
  match ev with EvDetectFromPort _ _ _ => true | _ => false end.
Definition is_kill (ev : Event) : bool :=
  match ev with EvKill _ _ => true | _ => false end.
Definition is_lookup (ev : Event) : bool :=
  match ev with EvGetFunctionsSDKVersion _ => true | _ => false end.

(** The environments handed to the children spawned in a trace. *)
Definition spawned_environments (host : gmap string string) (t : list Event)
  : list (gmap string string) :=
  flat_map (λ ev, match ev with
                  | EvSpawn _ _ _ o => [child_environment host o]
                  | _ => []
                  end) t.

(** ** String helpers of the JavaScript standard library *)

(** [hay.lastIndexOf(needle)], [-1] when absent. *)
Fixpoint lastIndexOf_from (needle hay : string) (i : nat) (last : Z) : Z :=
  let last' := if String.prefix needle hay then Z.of_nat i else last in
  match hay with
  | EmptyString => last'
  | String _ rest => lastIndexOf_from needle rest (S i) last'
  end.

Definition lastIndexOf (needle hay : string) : Z :=
  lastIndexOf_from needle hay 0 (-1).

(** [s.substring(0, n)]: a negative end counts as [0]. *)
Definition substring_to (n : Z) (s : string) : string :=
  String.substring 0 (Z.to_nat n) s.

(** [hay.includes(needle)]. *)
Fixpoint includes (needle hay : string) : bool :=
  String.prefix needle hay ||
  match hay with
  | EmptyString => false
  | String _ rest => includes needle rest
  end.

(** The line break of a template literal. *)
Definition nl : string := String (Ascii.ascii_of_nat 10) EmptyString.

(** * The node delegate *)

Module Node.

Definition MIN_FUNCTIONS_SDK_VERSION : string := "3.20.0".

Record Delegate : Type := {
  projectId : string;
  projectDir : string;
  sourceDir : string;
  runtime : string }.

(** The closures returned by [watch] and [serve], with what they capture. *)
Inductive Teardown : Type :=
| WatchTeardown
| ServeTeardown (childProcess : nat) (port : N).

(** Truthiness of a [string | null]. *)
Definition truthy (o : option string) : bool :=
  match o with
  | Some s => negb (String.eqb s "")
  | None => false
  end.

Definition quit_url (port : N) : string :=
  "http://localhost:" +:+ pretty port +:+ "/__/quitquitquit".

Definition debug_unparsable (v : string) : string :=
  "Could not parse firebase-functions version '" +:+ v +:+
  "' into semver. Falling back to parseTriggers.".

Definition warn_outdated (v : string) : string :=
  "You are using an old version of firebase-functions SDK (" +:+ v +:+ "). " +:+
  "Please update firebase-functions SDK to >=" +:+ MIN_FUNCTIONS_SDK_VERSION.

Section Delegate.
Context `{Platform}.
Context (W : World) (this : Delegate).

(** [get sdkVersion()] *)
Definition sdkVersion : Run string :=
  h ← get_heap;
  match _sdkVersion h with
  | None =>
      emit (EvGetFunctionsSDKVersion (sourceDir this));;
      let v := default "" (getFunctionsSDKVersion W (sourceDir this)) in
      update (with_sdkVersion (Some v));;
      mret v
  | Some v => mret v
  end.

(** [watch()] *)
Definition watch : Run Teardown := mret WatchTeardown.

(** The [env] object built by [serve]. *)
Definition serve_env (port : N) (config : RuntimeConfigValues)
    (envs : EnvironmentVariables) : ProcessEnv :=
  let env : ProcessEnv :=
    <["NODE_ENV" := process_env W !! "NODE_ENV"]>
      (<["PATH" := process_env W !! "PATH"]>
        (<["HOME" := process_env W !! "HOME"]>
          (<["FUNCTIONS_CONTROL_API" := Some "true"]>
            (<["PORT" := Some (pretty port)]> (Some <$> envs))))) in
  if bool_decide (length config ≠ 0)
  then <["CLOUD_RUNTIME_CONFIG" := Some (JSON_stringify config)]> env
  else env.

(** [serve(port, config, envs)] *)
Definition serve (port : N) (config : RuntimeConfigValues)
    (envs : EnvironmentVariables) : Run Teardown :=
  let env := serve_env port config envs in
  emit (EvRequireResolve "firebase-functions" [sourceDir this]);;
  match require_resolve W "firebase-functions" [sourceDir this] with
  | inr e => throw e
  | inl sdkPath =>
      let binPath :=
        substring_to (lastIndexOf "node_modules" sdkPath + 12) sdkPath in
      childProcess ←
        spawn (path_join [binPath; ".bin"; "firebase-functions"])
              [sourceDir this]
              {| spawn_cwd := sourceDir this;
                 spawn_env := Some env;
                 spawn_stdio := ["ignore"; "pipe"; "inherit"] |};
      mret (ServeTeardown childProcess port)
  end.

(** The closure returned by [serve].  The promise [p] listens for the
    next [exit] (resolve) or [error] (reject) of the child: a child that
    is no longer running emits neither.  A running child that stays
    silent is still there when the armed timers fire; the first one that
    finds [killed] unset delivers SIGKILL, which ends the process. *)
Definition serve_teardown (childProcess : nat) (port : N) : Run unit :=
  emit (EvFetch (quit_url port));;
  await (fetch W (quit_url port));;
  emit (EvSetTimeout 10000);;
  update (λ h, with_timers
                 (timers h ++ [{| timer_ms := 10000; timer_target := childProcess |}]) h);;
  h ← get_heap;
  let p := proc_at childProcess h in
  if running p then
    match child_after_quit W with
    | ReactExit st => let_exit childProcess (Some st)
    | ReactError e => throw e
    | ReactNothing =>
        flush_timers;;
        if killed p
        then await Pending
        else let_exit childProcess (Some (ExitSignal "SIGKILL"))
    end
  else await Pending.

Definition run_teardown (k : Teardown) : Run unit :=
  emit EvTeardown;;
  match k with
  | WatchTeardown => mret tt
  | ServeTeardown childProcess port => serve_teardown childProcess port
  end.

Definition parseTriggers (config : RuntimeConfigValues)
    (env : EnvironmentVariables) : Run Build :=
  emit (EvParseTriggers (projectId this) (sourceDir this) (runtime this));;
  await (parseTriggers_discoverBuild W).

(** [discoverBuild], from [detectFromYaml] on: what runs once the version
    gate has been passed. *)
Definition discover_gated (config : RuntimeConfigValues)
    (env : EnvironmentVariables) : Run Build :=
  emit (EvDetectFromYaml (sourceDir this) (projectId this) (runtime this));;
  discovered ← await (detectFromYaml W);
  match discovered with
  | Some b => mret b
  | None =>
      emit EvGetPort;;
      port ← await (getPort W);
      kill ← serve port config env;
      try_finally
        (emit (EvDetectFromPort port (projectId this) (runtime this));;
         match kill with
         | ServeTeardown childProcess _ =>
             let_exit childProcess (child_during_probe W)
         | WatchTeardown => mret tt
         end;;
         await (detectFromPort W port))
        (run_teardown kill)
  end.

(** [discoverBuild(config, env)] *)
Definition discoverBuild (config : RuntimeConfigValues)
    (env : EnvironmentVariables) : Run Build :=
  v ← sdkVersion;
  if negb (truthy (semver_valid v)) then
    v' ← sdkVersion;
    emit (EvDebug (debug_unparsable v'));;
    parseTriggers config env
  else
    v1 ← sdkVersion;
    if semver_lt v1 MIN_FUNCTIONS_SDK_VERSION then
      v2 ← sdkVersion;
      emit (EvWarning "functions" (warn_outdated v2));;
      parseTriggers config env
    else discover_gated config env.

(** The string every read of [sdkVersion] yields from heap [h] on. *)
Definition resolved_version (h : Heap) : string :=
  match _sdkVersion h with
  | Some v => v
  | None => default "" (getFunctionsSDKVersion W (sourceDir this))
  end.

End Delegate.

Section Creation.
Context `{Platform}.
Context (I : Imports) (W : World).

(** [tryCreateDelegate(context)] *)
Definition tryCreateDelegate (context : DelegateContext) : Run (option Delegate) :=
  let packageJsonPath := path_join [context_sourceDir context; "package.json"] in
  found ← await (fs_exists I packageJsonPath);
  if negb found then
    emit (EvDebug "Customer code is not Node");;
    mret None
  else
    match getRuntimeChoice I (context_sourceDir context) (context_runtime context) with
    | inr e => throw e
    | inl runtime =>
        if negb (String.prefix "nodejs" runtime) then
          emit (EvDebug
                  "Customer has a package.json but did not get a nodejs runtime. This should not happen");;
          throw (FirebaseError ("Unexpected runtime " +:+ runtime))
        else
          update (with_sdkVersion None);;
          mret (Some {| projectId := context_projectId context;
                        projectDir := context_projectDir context;
                        sourceDir := context_sourceDir context;
                        runtime := runtime |})
    end.

(** [validate()] *)
Definition validate (this : Delegate) : Run unit :=
  v ← sdkVersion W this;
  match checkFunctionsSDKVersion I v with
  | Some e => throw e
  | None =>
      let relativeDir := path_relative I (projectDir this) (sourceDir this) in
      match packageJsonIsValid I relativeDir (sourceDir this) (projectDir this) with
      | Some e => throw e
      | None => mret tt
      end
  end.

End Creation.

End Node.

(** * The dart delegate *)

(** The file [dart/index.ts]. An earlier copy of this delegate follows the
    node delegate in [node/index.ts]: its [discoverBuild] is the same, and
    its [watch] spawns nothing and returns the no-op closure, which behaves
    as [Node.WatchTeardown] does. *)

Module Dart.

Record Delegate : Type := {
  projectId : string;
  sourceDir : string;
  runtime : string }.

(** The closure returned by [watch], with the two handles it captures. *)
Inductive Teardown : Type :=
| WatchTeardown (dartRunProcess buildRunnerProcess : nat).

Definition build_runner_failed (code : Z) : string :=
  "build_runner failed with exit code " +:+ pretty code +:+
  ". Make sure your Dart project is properly configured.".

Definition manifest_missing (yamlPath : string) : string :=
  "Could not find functions.yaml at " +:+ yamlPath +:+ " after running build_runner. " +:+
  "Make sure your Dart project is properly configured with firebase_functions.".

(** [!proc.killed && proc.exitCode === null] *)
Definition signalable (p : ChildProcess) : bool :=
  negb (killed p) && bool_decide (exitCode p = None).

(** [proc.killed || proc.exitCode !== null] *)
Definition considered_gone (p : ChildProcess) : bool :=
  killed p || bool_decide (exitCode p ≠ None).

Section Delegate.
Context `{Platform}.
Context (W : World) (this : Delegate).

(** [get bin()] *)
Definition bin : Run string :=
  h ← get_heap;
  if String.eqb (_bin h) ""
  then update (with_bin "dart");; mret "dart"
  else mret (_bin h).

Definition piped (cwd : string) : SpawnOptions :=
  {| spawn_cwd := cwd; spawn_env := None;
     spawn_stdio := ["ignore"; "pipe"; "pipe"] |}.

(** [watch()] *)
Definition watch : Run Teardown :=
  b ← bin;
  dartRunProcess ← spawn b ["run"; sourceDir this] (piped (sourceDir this));
  b' ← bin;
  buildRunnerProcess ←
    spawn b' ["run"; "build_runner"; "watch"; "-d"] (piped (sourceDir this));
  mret (WatchTeardown dartRunProcess buildRunnerProcess).

Definition killProcess (proc : nat) : Run unit :=
  h ← get_heap;
  if signalable (proc_at proc h)
  then kill proc "SIGTERM";; mret tt
  else mret tt.

Definition force_kill (proc : nat) : Run unit :=
  h ← get_heap;
  if signalable (proc_at proc h)
  then kill proc "SIGKILL";; mret tt
  else mret tt.

(** The executor of one of the two final promises: resolved at once for a
    process considered gone, otherwise on its next [exit]. *)
Definition wait_exit (proc : nat) : Run unit :=
  h ← get_heap;
  let p := proc_at proc h in
  if considered_gone p then mret tt
  else if running p then
    match exits_eventually W proc with
    | Some st => let_exit proc (Some st)
    | None => await Pending
    end
  else await Pending.

(** The closure returned by [watch]. *)
Definition watch_teardown (dartRunProcess buildRunnerProcess : nat) : Run unit :=
  killProcess dartRunProcess;;
  killProcess buildRunnerProcess;;
  emit (EvSetTimeout 2000);;
  let_exit dartRunProcess (exits_during_grace W dartRunProcess);;
  let_exit buildRunnerProcess (exits_during_grace W buildRunnerProcess);;
  force_kill dartRunProcess;;
  force_kill buildRunnerProcess;;
  promise_all2 (wait_exit dartRunProcess) (wait_exit buildRunnerProcess).

Definition run_teardown (k : Teardown) : Run unit :=
  emit EvTeardown;;
  match k with
  | WatchTeardown dartRunProcess buildRunnerProcess =>
      watch_teardown dartRunProcess buildRunnerProcess
  end.

Definition yamlDir : string := path_join [sourceDir this; ".dart_tool"; "firebase"].
Definition yamlPath : string := path_join [yamlDir; "functions.yaml"].

(** The promise awaited on the generator: [exit] with code [0] or [null]
    resolves, any other code rejects, [error] rejects with its error. *)
Definition await_build_runner (buildRunnerProcess : nat) : Run unit :=
  match build_runner W with
  | GenExit st =>
      let_exit buildRunnerProcess (Some st);;
      match exit_listener_code st with
      | None => mret tt
      | Some code =>
          if bool_decide (code = 0%Z) then mret tt
          else throw (FirebaseError (build_runner_failed code))
      end
  | GenError e => throw e
  | GenSilent => await Pending
  end.

(** [discoverBuild(_configValues, _envs)] *)
Definition discoverBuild (_configValues : RuntimeConfigValues)
    (_envs : EnvironmentVariables) : Run Build :=
  emit (EvDetectFromYaml yamlDir (projectId this) (runtime this));;
  discovered ← await (detectFromYaml W);
  match discovered with
  | Some b => mret b
  | None =>
      emit (EvDebug "functions.yaml not found, running build_runner to generate it...");;
      b ← bin;
      buildRunnerProcess ←
        spawn b ["run"; "build_runner"; "build"] (piped (sourceDir this));
      await_build_runner buildRunnerProcess;;
      emit (EvDetectFromYaml yamlDir (projectId this) (runtime this));;
      discovered' ← await (detectFromYaml_again W);
      match discovered' with
      | Some b' => mret b'
      | None => throw (FirebaseError (manifest_missing yamlPath))
      end
  end.

End Delegate.

Section Creation.
Context `{Platform}.
Context (I : Imports).

Definition not_a_dart_runtime (runtime : string) : string :=
  "Runtime " +:+ runtime +:+ " is not a valid Dart runtime".

Definition not_dart_language (runtime : string) : string :=
  "Internal error. Trying to construct a dart runtime delegate for runtime " +:+ runtime.

(** [tryCreateDelegate(context)] *)
Definition tryCreateDelegate (context : DelegateContext) : Run (option Delegate) :=
  let pubspecYamlPath := path_join [context_sourceDir context; "pubspec.yaml"] in
  found ← await (fs_exists I pubspecYamlPath);
  if negb found then
    emit (EvDebug "Customer code is not Dart code.");;
    mret None
  else
    let runtime := default (supported_latest I "dart") (context_runtime context) in
    if negb (supported_isRuntime I runtime) then
      throw (FirebaseError (not_a_dart_runtime runtime))
    else if negb (supported_runtimeIsLanguage I runtime "dart") then
      throw (FirebaseError (not_dart_language runtime))
    else
      update (with_bin "");;
      mret (Some {| projectId := context_projectId context;
                    sourceDir := context_sourceDir context;
                    runtime := runtime |}).

Definition unreadable_pubspec (pubspecYamlPath message : string) : string :=
  "Failed to read pubspec.yaml at " +:+ pubspecYamlPath +:+ ": " +:+ message.

(** [validate()] *)
Definition validate (this : Delegate) : Run unit :=
  let pubspecYamlPath := path_join [sourceDir this; "pubspec.yaml"] in
  try_catch
    (await (fs_access I pubspecYamlPath))
    (λ err, throw (FirebaseError (unreadable_pubspec pubspecYamlPath (error_message I err)))).

End Creation.

End Dart.

(** * Secret access ([ensure.ts]) *)

Module Ensure.







(** A [Record<string, Set<string>>] with its own properties in insertion
    order, the order of [Object.entries]. *)
Abbreviation SecretMap := (list (string * list string)).

Fixpoint obj_get (k : string) (o : SecretMap) : option (list string) :=
  match o with
  | [] => None
  | (k', v) :: o' => if bool_decide (k' = k) then Some v else obj_get k o'
  end.




Section Access.
Context (W : World).
Context (defaultServiceAccount : string → string) (bold : string → string).








End Access.

Definition FAQ_URL : string := "https://firebase.google.com/support/faq#functions-runtime".
Definition CLOUD_BUILD_API : string := "cloudbuild.googleapis.com".

Definition nodeBillingError (projectId : string) : JsError :=
  FirebaseError
    ("Cloud Functions deployment requires the pay-as-you-go (Blaze) billing plan. To upgrade your project, visit the following URL:" +:+ nl +:+
     "      " +:+ nl +:+
     "https://console.firebase.google.com/project/" +:+ projectId +:+ "/usage/details" +:+ nl +:+
     nl +:+
     "For additional information about this requirement, see Firebase FAQs:" +:+ nl +:+
     nl +:+
     FAQ_URL).

Definition nodePermissionError (bold : string → string) (projectId : string) : JsError :=
  FirebaseError
    ("Cloud Functions deployment requires the Cloud Build API to be enabled. The current credentials do not have permission to enable APIs for project " +:+
     bold projectId +:+ "." +:+ nl +:+
     nl +:+
     "Please ask a project owner to visit the following URL to enable Cloud Build:" +:+ nl +:+
     nl +:+
     "https://console.cloud.google.com/apis/library/cloudbuild.googleapis.com?project=" +:+
     projectId +:+ nl +:+
     nl +:+
     "For additional information about this requirement, see Firebase FAQs:" +:+ nl +:+
     FAQ_URL +:+ nl).

Section Enablement.
Context (I : Imports) (bold : string → string).

(** [isPermissionError(e)] *)
Definition isPermissionError (e : JsError) : bool :=
  bool_decide (error_status I e = Some "PERMISSION_DENIED").

(** [ensureCloudBuildEnabled(projectId)] *)
Definition ensureCloudBuildEnabled (projectId : string) : Run unit :=
  try_catch
    (await (ensure I projectId CLOUD_BUILD_API "functions"))
    (λ e,
       if isBillingError I e then throw (nodeBillingError projectId)
       else if isPermissionError e then throw (nodePermissionError bold projectId)
       else throw e).

End Enablement.

End Ensure.

(** * A concrete platform and environment, to run the model *)

Module Sample.

(** Dot-separated numeric versions [MAJOR.MINOR.PATCH], the core of the
    semantic-version grammar. *)
Fixpoint split_dots (s : string) : list string :=
  match s with
  | EmptyString => [EmptyString]
  | String c rest =>
      if Ascii.eqb c "."%char then EmptyString :: split_dots rest
      else match split_dots rest with
           | [] => [String c EmptyString]
           | part :: parts => String c part :: parts
           end
  end.

Definition digit (c : Ascii.ascii) : option N :=
  let n := Ascii.N_of_ascii c in
  if ((48 <=? n) && (n <=? 57))%N then Some (n - 48)%N else None.

Fixpoint numeral_from (acc : N) (s : string) : option N :=
  match s with
  | EmptyString => Some acc
  | String c rest =>
      match digit c with
      | Some d => numeral_from (10 * acc + d)%N rest
      | None => None
      end
  end.

(** A numeric identifier: digits, without a leading zero. *)
Definition numeral (s : string) : option N :=
  match s with
  | EmptyString => None
  | String "0"%char (String _ _) => None
  | _ => numeral_from 0 s
  end.

Definition parse_version (v : string) : option (N * N * N) :=
  match split_dots v with
  | [a; b; c] =>
      match numeral a, numeral b, numeral c with
      | Some x, Some y, Some z => Some (x, y, z)
      | _, _, _ => None
      end
  | _ => None
  end.

Definition version_valid (v : string) : option string :=
  match parse_version v with Some _ => Some v | None => None end.

Definition version_lt (a b : string) : bool :=
  match parse_version a, parse_version b with
  | Some (x1, y1, z1), Some (x2, y2, z2) =>
      ((x1 <? x2) || ((x1 =? x2) && ((y1 <? y2) || ((y1 =? y2) && (z1 <? z2)))))%N
  | _, _ => false
  end.

Definition dquote : string := String (Ascii.ascii_of_nat 34) EmptyString.

Definition stringify (config : RuntimeConfigValues) : string :=
  "{" +:+
  String.concat "," (map (λ kv, dquote +:+ kv.1 +:+ dquote +:+ ":" +:+ kv.2) config)
  +:+ "}".

(** [path.join] on segments that are already normalized. *)
Definition join_segments (segments : list string) : string := String.concat "/" segments.

Lemma version_valid_nonempty v s : version_valid v = Some s → s ≠ "".
Proof.
  unfold version_valid. destruct (parse_version v) eqn:E; [|discriminate].
  intros [= <-] ->. vm_compute in E. discriminate.
Qed.

#[global] Instance platform : Platform := {|
  path_join := join_segments;
  JSON_stringify := stringify;
  semver_valid := version_valid;
  semver_lt := version_lt;
  semver_valid_nonempty := version_valid_nonempty |}.

Definition host : gmap string string :=
  {[ "HOME" := "/home/dev"; "PATH" := "/usr/bin"; "NODE_ENV" := "test";
     "GOOGLE_APPLICATION_CREDENTIALS" := "/home/dev/key.json" ]}.

Definition a_build : Build := {| endpoints := ["helloWorld"] |}.
Definition legacy_build : Build := {| endpoints := ["legacy"] |}.

(** A source tree with SDK [version], no static manifest, and a server
    child that answers the probe and exits on the quit request. *)
Definition world (version : option string) : World := {|
  process_env := host;
  getFunctionsSDKVersion := λ _, version;
  parseTriggers_discoverBuild := Resolved legacy_build;
  detectFromYaml := Resolved None;
  detectFromYaml_again := Resolved (Some a_build);
  getPort := Resolved 8000%N;
  require_resolve := λ _ _, inl "/app/functions/node_modules/firebase-functions/lib/index.js";
  detectFromPort := λ _, Resolved a_build;
  child_during_probe := None;
  fetch := λ _, Resolved tt;
  child_after_quit := ReactExit (ExitCode 0);
  build_runner := GenExit (ExitCode 0);
  exits_during_grace := λ _, Some (ExitSignal "SIGTERM");
  exits_eventually := λ _, None;
  ensureServiceAgentRole := λ _ _, Resolved tt |}.

Definition node_delegate : Node.Delegate := {|
  Node.projectId := "demo";
  Node.projectDir := "/app";
  Node.sourceDir := "/app/functions";
  Node.runtime := "nodejs16" |}.

Definition dart_delegate : Dart.Delegate := {|
  Dart.projectId := "demo";
  Dart.sourceDir := "/app/functions";
  Dart.runtime := "dart3" |}.

(** A source tree with a [package.json] and no [pubspec.yaml]. *)
Definition imports : Imports := {|
  fs_exists := λ p, Resolved (bool_decide (p = "/app/functions/package.json"));
  fs_access := λ _, Rejected (SystemError "ENOENT");
  path_relative := λ _ _, "functions";
  getRuntimeChoice := λ _ declared, inl (default "nodejs16" declared);
  checkFunctionsSDKVersion := λ _, None;
  packageJsonIsValid := λ _ _ _, None;
  supported_latest := λ _, "dart3";
  supported_isRuntime := λ r, bool_decide (r ∈ ["nodejs16"; "dart3"]);
  supported_runtimeIsLanguage := λ r language, String.prefix language r;
  error_message := λ e, match e with
                        | FirebaseError m | TypeError m => m
                        | SystemError code => code +:+ ": no such file or directory"
                        end;
  isBillingError := λ _, false;
  error_status := λ _, None;
  ensure := λ _ _ _, Resolved tt |}.

Definition context : DelegateContext := {|
  context_projectId := "demo";
  context_projectDir := "/app";
  context_sourceDir := "/app/functions";
  context_runtime := None |}.

End Sample.

(** * The delegates behind their common interface *)

Inductive Delegate : Type :=
| NodeDelegate (d : Node.Delegate)
| DartDelegate (d : Dart.Delegate).

Inductive Teardown : Type :=
| NodeTeardown (k : Node.Teardown)
| DartTeardown (k : Dart.Teardown).

Definition discoverBuild `{Platform} (W : World) (d : Delegate)
    (config : RuntimeConfigValues) (env : EnvironmentVariables) : Run Build :=
  match d with
  | NodeDelegate d => Node.discoverBuild W d config env
  | DartDelegate d => Dart.discoverBuild W d config env
  end.

(** Invoking a teardown closure. *)
Definition invoke (W : World) (k : Teardown) : Run unit :=
  match k with
  | NodeTeardown k => Node.run_teardown W k
  | DartTeardown k => Dart.run_teardown W k
  end.

(** The version gate of the node delegate lets the call through; the dart
    delegate has no gate. *)
Definition gate_passes `{Platform} (W : World) (d : Delegate) (h : Heap) : bool :=
  match d with
  | NodeDelegate d =>
      let v := Node.resolved_version W d h in
      Node.truthy (semver_valid v) && negb (semver_lt v Node.MIN_FUNCTIONS_SDK_VERSION)
  | DartDelegate _ => true
  end.

(** The directory handed to [detectFromYaml]. *)
Definition manifest_dir `{Platform} (d : Delegate) : string :=
  match d with
  | NodeDelegate d => Node.sourceDir d
  | DartDelegate d => Dart.yamlDir d
  end.

Definition delegate_projectId (d : Delegate) : string :=
  match d with
  | NodeDelegate d => Node.projectId d
  | DartDelegate d => Dart.projectId d
  end.

Definition delegate_runtime (d : Delegate) : string :=
  match d with
  | NodeDelegate d => Node.runtime d
  | DartDelegate d => Dart.runtime d
  end.

(** ** Vocabulary of the statements *)

Definition prefix_trace {A} (t : list Event) (x : Heap * list Event * Settled A)
  : Heap * list Event * Settled A :=
  (heap_of x, t ++ trace_of x, settled_of x).

(** The lookup a read of [sdkVersion] performs from heap [h]. *)
Definition lookup_trace (this : Node.Delegate) (h : Heap) : list Event :=
  match _sdkVersion h with
  | None => [EvGetFunctionsSDKVersion (Node.sourceDir this)]
  | Some _ => []
  end.

Definition version_lookup (d : Delegate) (h : Heap) : list Event :=
  match d with
  | NodeDelegate d => lookup_trace d h
  | DartDelegate _ => []
  end.

(** Successive reads of [sdkVersion] on one delegate, each in the
    environment of its moment. *)
Fixpoint reads (this : Node.Delegate) (ws : list World) : Run (list string) :=
  match ws with
  | [] => mret []
  | W :: ws' => v ← Node.sdkVersion W this; vs ← reads this ws'; mret (v :: vs)
  end.

(** Events of a teardown at work. *)
Definition is_supervision (ev : Event) : bool :=
  match ev with
  | EvFetch _ | EvSetTimeout _ | EvKill _ _ => true
  | _ => false
  end.

Definition is_static_read (ev : Event) : bool :=
  match ev with EvDetectFromYaml _ _ _ => true | _ => false end.

(** ** Vocabulary for the process table *)
Definition map_proc (y : nat) (g : ChildProcess → ChildProcess) (h : Heap) : Heap :=
  with_procs (alter g y (procs h)) h.

Definition deliver (p : ChildProcess) : ChildProcess :=
  if running p
  then {| running := running p; killed := true;
          exitCode := exitCode p; signalCode := signalCode p |}
  else p.

Definition exit_with (o : option ExitStatus) (p : ChildProcess) : ChildProcess :=
  match o with
  | Some st => if running p then terminate st p else p
  | None => p
  end.

Definition holds (φ : ChildProcess → Prop) (x : nat) (h : Heap) : Prop :=
  ∃ p, procs h !! x = Some p ∧ φ p.

Definition reachable (p : ChildProcess) : bool :=
  running p || killed p || bool_decide (exitCode p ≠ None).

Definition signal_if_signalable (p : ChildProcess) : ChildProcess :=
  if Dart.signalable p then deliver p else p.

Definition kill_trace (signal : string) (y : nat) (h : Heap) : list Event :=
  if Dart.signalable (proc_at y h) then [EvKill y signal] else [].

Definition await_exit (W : World) (y : nat) (p : ChildProcess) : ChildProcess :=
  if Dart.considered_gone p then p
  else exit_with (exits_eventually W y) p.

Definition unreachable (p : ChildProcess) : Prop :=
  running p = false ∧ killed p = false ∧ exitCode p = None.

(** Conditions under which a teardown finds its children answering. *)
Definition responsive (W : World) (k : Teardown) (h : Heap) : Prop :=
  match k with
  | NodeTeardown Node.WatchTeardown => True
  | NodeTeardown (Node.ServeTeardown childProcess port) =>
      fetch W (Node.quit_url port) = Resolved tt
      ∧ running (proc_at childProcess h) = true
      ∧ match child_after_quit W with
        | ReactExit _ => True
        | ReactError _ => False
        | ReactNothing => killed (proc_at childProcess h) = false
        end
  | DartTeardown (Dart.WatchTeardown dartRunProcess buildRunnerProcess) =>
      holds (λ p, reachable p = true) dartRunProcess h
      ∧ holds (λ p, reachable p = true) buildRunnerProcess h
  end.


Definition handles_valid (k : Teardown) (h : Heap) : Prop :=
  match k with
  | NodeTeardown Node.WatchTeardown => True
  | NodeTeardown (Node.ServeTeardown childProcess _) => childProcess < length (procs h)
  | DartTeardown (Dart.WatchTeardown dartRunProcess buildRunnerProcess) =>
      dartRunProcess < length (procs h) ∧ buildRunnerProcess < length (procs h)
  end.

(** ** Variations of an environment *)

Definition with_process_env (host : gmap string string) (W : World) : World := {|
  process_env := host;
  getFunctionsSDKVersion := getFunctionsSDKVersion W;
  parseTriggers_discoverBuild := parseTriggers_discoverBuild W;
  detectFromYaml := detectFromYaml W;
  detectFromYaml_again := detectFromYaml_again W;
  getPort := getPort W;
  require_resolve := require_resolve W;
  detectFromPort := detectFromPort W;
  child_during_probe := child_during_probe W;
  fetch := fetch W;
  child_after_quit := child_after_quit W;
  build_runner := build_runner W;
  exits_during_grace := exits_during_grace W;
  exits_eventually := exits_eventually W;
  ensureServiceAgentRole := ensureServiceAgentRole W |}.

Definition with_build_runner (g : GeneratorRun) (W : World) : World := {|
  process_env := process_env W;
  getFunctionsSDKVersion := getFunctionsSDKVersion W;
  parseTriggers_discoverBuild := parseTriggers_discoverBuild W;
  detectFromYaml := detectFromYaml W;
  detectFromYaml_again := detectFromYaml_again W;
  getPort := getPort W;
  require_resolve := require_resolve W;
  detectFromPort := detectFromPort W;
  child_during_probe := child_during_probe W;
  fetch := fetch W;
  child_after_quit := child_after_quit W;
  build_runner := g;
  exits_during_grace := exits_during_grace W;
  exits_eventually := exits_eventually W;
  ensureServiceAgentRole := ensureServiceAgentRole W |}.

(** The environment [serve] spells out for its child, variable by variable. *)
Definition explicit_env `{Platform} (host : gmap string string) (port : N)
    (config : RuntimeConfigValues) (envs : EnvironmentVariables) (k : string)
  : option string :=
  if bool_decide (k = "CLOUD_RUNTIME_CONFIG" ∧ config ≠ []) then Some (JSON_stringify config)
  else if bool_decide (k ∈ ["HOME"; "PATH"; "NODE_ENV"]) then host !! k
  else if bool_decide (k = "FUNCTIONS_CONTROL_API") then Some "true"
  else if bool_decide (k = "PORT") then Some (pretty port)
  else envs !! k.

(** The exit statuses the generator promise takes for success. *)
Definition exit_accepted (st : ExitStatus) : bool :=
  match st with
  | ExitCode c => bool_decide (c = 0%Z)
  | ExitSignal _ => true
  end.

(** The executable name [bin] yields from heap [h]. *)
Definition bin_value (h : Heap) : string :=
  if String.eqb (_bin h) "" then "dart" else _bin h.

Definition inherits_environment (ev : Event) : Prop :=
  match ev with
  | EvSpawn _ _ _ o => spawn_env o = None
  | _ => True
  end.

Definition with_detectFromYaml (y : Settled (option Build)) (W : World) : World := {|
  process_env := process_env W;
  getFunctionsSDKVersion := getFunctionsSDKVersion W;
  parseTriggers_discoverBuild := parseTriggers_discoverBuild W;
  detectFromYaml := y;
  detectFromYaml_again := detectFromYaml_again W;
  getPort := getPort W;
  require_resolve := require_resolve W;
  detectFromPort := detectFromPort W;
  child_during_probe := child_during_probe W;
  fetch := fetch W;
  child_after_quit := child_after_quit W;
  build_runner := build_runner W;
  exits_during_grace := exits_during_grace W;
  exits_eventually := exits_eventually W;
  ensureServiceAgentRole := ensureServiceAgentRole W |}.


(** ** Trace invariants *)

Definition emits_only (P : Event → Prop) {A} (m : Run A) : Prop :=
  ∀ h, Forall P (trace_of (m h)).

(** Events the gated part of the node discovery can emit. *)
Definition gated_event (ev : Event) : bool :=
  match ev with
  | EvDetectFromYaml _ _ _ | EvGetPort | EvRequireResolve _ _ | EvSpawn _ _ _ _
  | EvDetectFromPort _ _ _ | EvTeardown | EvFetch _ | EvSetTimeout _ | EvKill _ _ => true
  | _ => false
  end.

(** ** The folds of [secretsToServiceAccounts], named *)



Definition nonempty_sets (o : Ensure.SecretMap) : Prop :=
  ∀ k v, Ensure.obj_get k o = Some v → v ≠ [].

(** ** Scenarios *)

Definition other_host : gmap string string :=
  <["FIREBASE_TOKEN" := "t0ken"]> Sample.host.






Definition with_exits_during_grace (g : nat → option ExitStatus) (W : World) : World := {|
  process_env := process_env W;
  getFunctionsSDKVersion := getFunctionsSDKVersion W;
  parseTriggers_discoverBuild := parseTriggers_discoverBuild W;
  detectFromYaml := detectFromYaml W;
  detectFromYaml_again := detectFromYaml_again W;
  getPort := getPort W;
  require_resolve := require_resolve W;
  detectFromPort := detectFromPort W;
  child_during_probe := child_during_probe W;
  fetch := fetch W;
  child_after_quit := child_after_quit W;
  build_runner := build_runner W;
  exits_during_grace := g;
  exits_eventually := exits_eventually W;
  ensureServiceAgentRole := ensureServiceAgentRole W |}.


(** ** Vocabulary for secret access *)



(** Every set of the record is without repeats and not empty. *)
Definition sets_ok (o : Ensure.SecretMap) : Prop :=
  Forall (λ entry, NoDup entry.2 ∧ entry.2 ≠ []) o.






(** ** Vocabulary for signals and messages *)

Definition is_sigkill (ev : Event) : bool :=
  match ev with EvKill _ signal => String.eqb signal "SIGKILL" | _ => false end.

(** A process that a delivered signal has marked and that still runs. *)
Definition signalled (p : ChildProcess) : Prop := running p = true ∧ killed p = true.

(** A process that has ended without [kill()] having reached it. *)
Definition ended_unsignalled (p : ChildProcess) : Prop :=
  running p = false ∧ killed p = false.

(** What follows the first character. *)
Definition after_first (s : string) : string :=
  match s with
  | EmptyString => EmptyString
  | String _ rest => rest
  end.

(** The message an error of the model carries. *)
Definition message_of (e : JsError) : string :=
  match e with
  | FirebaseError m | TypeError m => m
  | SystemError code => code
  end.

(** * Reasoning about [Run] *)

Lemma bind_unfold {A B} (m : Run A) (f : A → Run B) h :
  (m ≫= f) h =
  match m h with
  | (h1, t1, Resolved a) => prefix_trace t1 (f a h1)
  | (h1, t1, Rejected e) => (h1, t1, Rejected e)
  | (h1, t1, Pending) => (h1, t1, Pending)
  end.
Proof.
  unfold mbind, Run_bind, run_bind, prefix_trace, heap_of, trace_of, settled_of.
  destruct (m h) as [[h1 t1] [a|e|]]; try reflexivity.
  destruct (f a h1) as [[h2 t2] r]. reflexivity.
Qed.

Lemma prefix_trace_nil {A} (x : Heap * list Event * Settled A) : prefix_trace [] x = x.
Proof. by destruct x as [[??]?]. Qed.

Lemma prefix_trace_trace {A} t (x : Heap * list Event * Settled A) :
  trace_of (prefix_trace t x) = t ++ trace_of x.
Proof. reflexivity. Qed.

Lemma prefix_trace_settled {A} t (x : Heap * list Event * Settled A) :
  settled_of (prefix_trace t x) = settled_of x.
Proof. reflexivity. Qed.

Lemma prefix_trace_heap {A} t (x : Heap * list Event * Settled A) :
  heap_of (prefix_trace t x) = heap_of x.
Proof. reflexivity. Qed.

Lemma prefix_trace_prefix {A} t1 t2 (x : Heap * list Event * Settled A) :
  prefix_trace t1 (prefix_trace t2 x) = prefix_trace (t1 ++ t2) x.
Proof. destruct x as [[h t] r]. unfold prefix_trace; cbn. by rewrite (assoc_L (++)). Qed.

Lemma count_app p t1 t2 : count p (t1 ++ t2) = count p t1 + count p t2.
Proof. unfold count. by rewrite List.filter_app, length_app. Qed.

Lemma count_none p t : Forall (λ ev, p ev = false) t → count p t = 0.
Proof.
  unfold count. induction 1 as [|ev t Hev _ IH]; [done|].
  simpl. by rewrite Hev.
Qed.

(** * The node delegate: reading the version, the gate *)

Section NodeFacts.
Context `{Platform} (W : World) (this : Node.Delegate).

Lemma sdkVersion_run h :
  Node.sdkVersion W this h =
  (with_sdkVersion (Some (Node.resolved_version W this h)) h,
   lookup_trace this h, Resolved (Node.resolved_version W this h)).
Proof.
  unfold Node.sdkVersion, Node.resolved_version, lookup_trace.
  rewrite bind_unfold. simpl. rewrite prefix_trace_nil.
  destruct h as [ps ts [v|] b]; reflexivity.
Qed.

Lemma sdkVersion_cached v h :
  _sdkVersion h = Some v → Node.sdkVersion W this h = (h, [], Resolved v).
Proof.
  intros Hc. rewrite sdkVersion_run. unfold Node.resolved_version, lookup_trace.
  rewrite Hc. by destruct h as [ps ts c b]; simpl in *; subst.
Qed.

Lemma discoverBuild_unfold config env h :
  let v := Node.resolved_version W this h in
  let h' := with_sdkVersion (Some v) h in
  Node.discoverBuild W this config env h =
  prefix_trace (lookup_trace this h)
    (if negb (Node.truthy (semver_valid v)) then
       prefix_trace [EvDebug (Node.debug_unparsable v)]
         (Node.parseTriggers W this config env h')
     else if semver_lt v Node.MIN_FUNCTIONS_SDK_VERSION then
       prefix_trace [EvWarning "functions" (Node.warn_outdated v)]
         (Node.parseTriggers W this config env h')
     else Node.discover_gated W this config env h').
Proof.
  intros v h'. unfold Node.discoverBuild.
  rewrite bind_unfold, sdkVersion_run. fold v. fold h'.
  f_equal.
  assert (Hc : _sdkVersion h' = Some v) by reflexivity.
  destruct (negb (Node.truthy (semver_valid v))).
  - rewrite bind_unfold, (sdkVersion_cached v h' Hc), prefix_trace_nil.
    rewrite bind_unfold. simpl. reflexivity.
  - rewrite bind_unfold, (sdkVersion_cached v h' Hc), prefix_trace_nil.
    destruct (semver_lt v Node.MIN_FUNCTIONS_SDK_VERSION); [|reflexivity].
    rewrite bind_unfold, (sdkVersion_cached v h' Hc), prefix_trace_nil.
    rewrite bind_unfold. reflexivity.
Qed.

Lemma parseTriggers_run config env h :
  Node.parseTriggers W this config env h =
  (h, [EvParseTriggers (Node.projectId this) (Node.sourceDir this) (Node.runtime this)],
   parseTriggers_discoverBuild W).
Proof.
  unfold Node.parseTriggers. rewrite bind_unfold. simpl.
  unfold prefix_trace, await. simpl. reflexivity.
Qed.
End NodeFacts.

(** * What a computation can emit *)

Lemma emits_only_ret P {A} (a : A) : emits_only P (mret a).
Proof. intros h. constructor. Qed.

Lemma emits_only_bind P {A B} (m : Run A) (f : A → Run B) :
  emits_only P m → (∀ a, emits_only P (f a)) → emits_only P (m ≫= f).
Proof.
  intros Hm Hf h. rewrite bind_unfold. specialize (Hm h).
  destruct (m h) as [[h1 t1] [a|e|]]; simpl in *; try done.
  apply Forall_app. split; [done|]. apply Hf.
Qed.

Lemma emits_only_emit (P : Event → Prop) ev : P ev → emits_only P (emit ev).
Proof. intros Hev h. by repeat constructor. Qed.

Lemma emits_only_await P {A} (p : Settled A) : emits_only P (await p).
Proof. intros h. constructor. Qed.

Lemma emits_only_throw P {A} e : emits_only P (@throw A e).
Proof. intros h. constructor. Qed.

Lemma emits_only_get P : emits_only P get_heap.
Proof. intros h. constructor. Qed.

Lemma emits_only_update P f : emits_only P (update f).
Proof. intros h. constructor. Qed.

Lemma emits_only_promise_all2 P m1 m2 :
  emits_only P m1 → emits_only P m2 → emits_only P (promise_all2 m1 m2).
Proof.
  intros H1 H2 h. unfold promise_all2. specialize (H1 h).
  destruct (m1 h) as [[h1 t1] r1]. specialize (H2 h1).
  destruct (m2 h1) as [[h2 t2] r2]. simpl in *. apply Forall_app. done.
Qed.

Ltac trace_step :=
  first
    [ apply emits_only_bind; [|intros ?]
    | apply emits_only_ret | apply emits_only_await | apply emits_only_throw
    | apply emits_only_get | apply emits_only_update
    | apply emits_only_emit; reflexivity
    | apply emits_only_promise_all2 ].

Lemma emits_only_set_proc P pid p : emits_only P (set_proc pid p).
Proof. apply emits_only_update. Qed.

Lemma emits_only_let_exit P pid o : emits_only P (let_exit pid o).
Proof.
  unfold let_exit. trace_step; [trace_step|].
  destruct o as [st|]; [|trace_step].
  destruct (running _); [apply emits_only_set_proc|trace_step].
Qed.

Lemma let_exit_run pid o h :
  let_exit pid o h = (heap_of (let_exit pid o h), [], Resolved tt).
Proof.
  unfold let_exit. rewrite bind_unfold. simpl. rewrite prefix_trace_nil.
  destruct o as [st|]; [|reflexivity].
  destruct (running _); reflexivity.
Qed.

Lemma emits_only_kill pid sig :
  emits_only (λ ev, is_supervision ev = true) (kill pid sig).
Proof.
  unfold kill. repeat trace_step.
  destruct (running _); repeat trace_step.
Qed.

Lemma emits_only_fire t : emits_only (λ ev, is_supervision ev = true) (fire t).
Proof.
  unfold fire. repeat trace_step.
  destruct (negb _); [apply emits_only_kill|trace_step].
Qed.

Lemma emits_only_fire_all ts : emits_only (λ ev, is_supervision ev = true) (fire_all ts).
Proof.
  induction ts as [|t ts IH]; simpl; [trace_step|].
  trace_step; [apply emits_only_fire|done].
Qed.

Lemma emits_only_flush_timers : emits_only (λ ev, is_supervision ev = true) flush_timers.
Proof. unfold flush_timers. repeat trace_step. apply emits_only_fire_all. Qed.

Lemma emits_only_serve_teardown W pid port :
  emits_only (λ ev, is_supervision ev = true) (Node.serve_teardown W pid port).
Proof.
  unfold Node.serve_teardown. repeat trace_step.
  destruct (running _); [|trace_step].
  destruct (child_after_quit W); [apply emits_only_let_exit|trace_step|].
  trace_step; [apply emits_only_flush_timers|].
  destruct (killed _); [trace_step|apply emits_only_let_exit].
Qed.

Lemma node_run_teardown_trace W k h :
  ∃ rest, trace_of (Node.run_teardown W k h) = EvTeardown :: rest
          ∧ Forall (λ ev, is_supervision ev = true) rest.
Proof.
  unfold Node.run_teardown. rewrite bind_unfold. cbn [emit].
  destruct k as [|pid port].
  - exists []. split; [reflexivity|constructor].
  - exists (trace_of (Node.serve_teardown W pid port h)). split; [reflexivity|].
    apply emits_only_serve_teardown.
Qed.

Lemma try_finally_unfold {A} (body : Run A) (fin : Run unit) h :
  try_finally body fin h =
  match body h with
  | (h1, t1, Pending) => (h1, t1, Pending)
  | (h1, t1, r) =>
      prefix_trace t1
        (heap_of (fin h1), trace_of (fin h1),
         match settled_of (fin h1) with
         | Resolved _ => r
         | Rejected e => Rejected e
         | Pending => Pending
         end)
  end.
Proof.
  unfold try_finally, prefix_trace, heap_of, trace_of, settled_of.
  destruct (body h) as [[h1 t1] [a|e|]]; try reflexivity;
    destruct (fin h1) as [[h2 t2] [[]|e'|]]; reflexivity.
Qed.

(** * The cached SDK version *)

Section NodeClaims.
Context `{Platform}.

Lemma reads_cached this ws v h :
  _sdkVersion h = Some v → reads this ws h = (h, [], Resolved (replicate (length ws) v)).
Proof.
  intros Hc. induction ws as [|W ws IH]; [reflexivity|].
  simpl. rewrite bind_unfold, (sdkVersion_cached W this v h Hc), prefix_trace_nil.
  rewrite bind_unfold, IH. reflexivity.
Qed.

(** C8. The SDK version of a node delegate is resolved lazily and at most
    once. On a delegate whose cache is still empty, a succession of reads of
    [sdkVersion] (each in the environment of its moment, so a later lookup
    could answer differently) performs exactly one lookup of the declared
    dependency version, at the first read; every read returns the string that
    first lookup gave ([""] when it gave none), and the cache holds it. *)
Theorem sdkVersion_lazy_cached (this : Node.Delegate) (W : World) (ws : list World) (h : Heap) :
  _sdkVersion h = None →
  let r := reads this (W :: ws) h in
  let v := default "" (getFunctionsSDKVersion W (Node.sourceDir this)) in
  trace_of r = [EvGetFunctionsSDKVersion (Node.sourceDir this)]
  ∧ count is_lookup (trace_of r) = 1
  ∧ settled_of r = Resolved (replicate (S (length ws)) v)
  ∧ _sdkVersion (heap_of r) = Some v.
Proof.
  intros Hc r v. subst r. simpl.
  rewrite bind_unfold, sdkVersion_run.
  unfold Node.resolved_version, lookup_trace. rewrite Hc. fold v.
  rewrite bind_unfold, (reads_cached this ws v) by reflexivity.
  cbn. done.
Qed.

End NodeClaims.

(** * Discovery by the node delegate *)

Section DiscoveryClaims.
Context `{Platform}.

Lemma count_lookup_trace p this h :
  (∀ d, p (EvGetFunctionsSDKVersion d) = false) → count p (lookup_trace this h) = 0.
Proof. intros Hp. unfold lookup_trace. destruct (_sdkVersion h); cbn; by rewrite ?Hp. Qed.

Lemma filter_lookup_trace p this h :
  (∀ d, p (EvGetFunctionsSDKVersion d) = false) → List.filter p (lookup_trace this h) = [].
Proof. intros Hp. unfold lookup_trace. destruct (_sdkVersion h); cbn; by rewrite ?Hp. Qed.

Lemma serve_run W this port config envs sdkPath h :
  require_resolve W "firebase-functions" [Node.sourceDir this] = inl sdkPath →
  ∃ command opts,
    Node.serve W this port config envs h =
    (with_procs (procs h ++ [fresh_process]) h,
     [EvRequireResolve "firebase-functions" [Node.sourceDir this];
      EvSpawn (length (procs h)) command [Node.sourceDir this] opts],
     Resolved (Node.ServeTeardown (length (procs h)) port))
    ∧ spawn_env opts = Some (Node.serve_env W port config envs).
Proof.
  intros Hres. unfold Node.serve. rewrite bind_unfold. cbn [emit].
  rewrite Hres. eexists _, _. split; [reflexivity|reflexivity].
Qed.

Lemma serve_fails W this port config envs e h :
  require_resolve W "firebase-functions" [Node.sourceDir this] = inr e →
  Node.serve W this port config envs h =
    (h, [EvRequireResolve "firebase-functions" [Node.sourceDir this]], Rejected e).
Proof.
  intros Hres. unfold Node.serve. rewrite bind_unfold. cbn [emit].
  rewrite Hres. reflexivity.
Qed.

Lemma supervision_gated t :
  Forall (λ ev, is_supervision ev = true) t → Forall (λ ev, gated_event ev = true) t.
Proof. intros Ht. eapply Forall_impl; [exact Ht|]. by intros []. Qed.

Lemma emits_only_try_finally P {A} (body : Run A) fin :
  emits_only P body → emits_only P fin → emits_only P (try_finally body fin).
Proof.
  intros Hb Hf h. rewrite try_finally_unfold. specialize (Hb h).
  destruct (body h) as [[h1 t1] [a|e|]]; simpl in *; try done;
    (apply Forall_app; split; [done|apply Hf]).
Qed.

Lemma emits_only_node_run_teardown W k :
  emits_only (λ ev, gated_event ev = true) (Node.run_teardown W k).
Proof.
  intros h. destruct (node_run_teardown_trace W k h) as (rest & -> & Hrest).
  constructor; [reflexivity|by apply supervision_gated].
Qed.

Lemma emits_only_serve W this port config envs :
  emits_only (λ ev, gated_event ev = true) (Node.serve W this port config envs).
Proof.
  unfold Node.serve. repeat trace_step.
  destruct (require_resolve _ _ _); [|trace_step].
  unfold spawn. repeat trace_step.
Qed.

Lemma emits_only_discover_gated W this config env :
  emits_only (λ ev, gated_event ev = true) (Node.discover_gated W this config env).
Proof.
  unfold Node.discover_gated.
  apply emits_only_bind; [by trace_step|intros _].
  apply emits_only_bind; [by trace_step|intros [b|]]; [trace_step|].
  apply emits_only_bind; [by trace_step|intros _].
  apply emits_only_bind; [by trace_step|intros port].
  apply emits_only_bind; [apply emits_only_serve|intros kill].
  apply emits_only_try_finally; [|apply emits_only_node_run_teardown].
  apply emits_only_bind; [by trace_step|intros _].
  apply emits_only_bind; [|intros _; trace_step].
  destruct kill; [trace_step|apply emits_only_let_exit].
Qed.

(** C1. The version gate of the node delegate's [discoverBuild], for the SDK
    version [v] the delegate resolves. When [semver.valid v] is null the call
    settles as the legacy [parseTriggers] discovery does, calls it once, logs
    no warning and reads no static manifest. When [v] is valid and
    [semver.lt v "3.20.0"], the same fallback is taken and the warnings logged
    are exactly one, the outdated-version one. When [v] is valid and not
    below the threshold, [parseTriggers] is not called and no warning is
    logged. *)
Theorem discoverBuild_version_gate (W : World) (this : Node.Delegate)
    (config : RuntimeConfigValues) (env : EnvironmentVariables) (h : Heap) :
  let r := Node.discoverBuild W this config env h in
  let v := Node.resolved_version W this h in
  match semver_valid v with
  | None =>
      settled_of r = parseTriggers_discoverBuild W
      ∧ count is_parseTriggers (trace_of r) = 1
      ∧ count is_warning (trace_of r) = 0
      ∧ count is_static_read (trace_of r) = 0
  | Some _ =>
      if semver_lt v Node.MIN_FUNCTIONS_SDK_VERSION then
        settled_of r = parseTriggers_discoverBuild W
        ∧ count is_parseTriggers (trace_of r) = 1
        ∧ List.filter is_warning (trace_of r) =
            [EvWarning "functions" (Node.warn_outdated v)]
        ∧ count is_static_read (trace_of r) = 0
      else
        count is_parseTriggers (trace_of r) = 0
        ∧ count is_warning (trace_of r) = 0
  end.
Proof.
  intros r v. subst r. rewrite discoverBuild_unfold. fold v.
  destruct (semver_valid v) as [s|] eqn:Hv.
  - assert (Node.truthy (Some s) = true) as ->.
    { simpl. apply negb_true_iff, String.eqb_neq. eapply semver_valid_nonempty, Hv. }
    cbn [negb].
    destruct (semver_lt v Node.MIN_FUNCTIONS_SDK_VERSION).
    + rewrite parseTriggers_run. rewrite !prefix_trace_trace, !prefix_trace_settled.
      cbn [trace_of settled_of fst snd]. rewrite !count_app, List.filter_app.
      rewrite !count_lookup_trace, filter_lookup_trace by done. done.
    + rewrite prefix_trace_trace, !count_app, !count_lookup_trace by done.
      pose proof (emits_only_discover_gated W this config env
                    (with_sdkVersion (Some v) h)) as Hg.
      split; (apply count_none; eapply Forall_impl; [exact Hg|]); by intros [].
  - cbn [Node.truthy negb]. rewrite parseTriggers_run.
    rewrite !prefix_trace_trace, !prefix_trace_settled.
    cbn [trace_of settled_of fst snd]. rewrite !count_app.
    rewrite !count_lookup_trace by done. done.
Qed.

Lemma discoverBuild_gated W this config env h :
  gate_passes W (NodeDelegate this) h = true →
  Node.discoverBuild W this config env h =
  prefix_trace (lookup_trace this h)
    (Node.discover_gated W this config env
       (with_sdkVersion (Some (Node.resolved_version W this h)) h)).
Proof.
  intros Hg. rewrite discoverBuild_unfold. cbn [gate_passes] in Hg.
  apply andb_true_iff in Hg as [-> Hlt]. apply negb_true_iff in Hlt as ->.
  reflexivity.
Qed.

(** C2. Static discovery short-circuits live discovery, for both delegates
    (for the node delegate once its version gate lets the call through).
    When [detectFromYaml] returns a build, [discoverBuild] resolves with that
    build; its trace is the version lookup (node only) followed by the one
    read of the static manifest, so no subprocess is spawned and no port is
    asked for, and the process table is unchanged. *)
Theorem static_discovery_short_circuits (W : World) (d : Delegate)
    (config : RuntimeConfigValues) (env : EnvironmentVariables) (h : Heap) (b : Build) :
  gate_passes W d h = true →
  detectFromYaml W = Resolved (Some b) →
  let r := discoverBuild W d config env h in
  settled_of r = Resolved b
  ∧ trace_of r =
      version_lookup d h ++
      [EvDetectFromYaml (manifest_dir d) (delegate_projectId d) (delegate_runtime d)]
  ∧ count is_spawn (trace_of r) = 0
  ∧ count is_getPort (trace_of r) = 0
  ∧ procs (heap_of r) = procs h.
Proof.
  intros Hg Hy r. subst r. destruct d as [this|this]; cbn [discoverBuild].
  - rewrite (discoverBuild_gated _ _ _ _ _ Hg).
    unfold Node.discover_gated. rewrite bind_unfold. cbn [emit].
    rewrite bind_unfold. unfold await at 1. rewrite Hy. cbn -[count].
    rewrite !count_app, !count_lookup_trace by done. done.
  - unfold Dart.discoverBuild. rewrite bind_unfold. cbn [emit].
    rewrite bind_unfold. unfold await at 1. rewrite Hy. cbn. done.
Qed.

(** C3. Live discovery of the node delegate. When the version gate is
    passed, no static manifest is found, a port is obtained and the SDK
    binary is located, and the probe settles (resolves or rejects), the trace
    of [discoverBuild] is, in this order: the read of the static manifest,
    the port request, the start of the serve process, the probe of the port,
    the invocation of the teardown returned by [serve], and then only what
    that teardown does. The port is requested once, one process is spawned,
    the probe runs once and the teardown is invoked once. The call settles
    as the probe did when the teardown resolves, so a probe error is passed
    on after the teardown has run; an error or a hang of the teardown
    replaces it. *)
Theorem live_discovery_order (W : World) (this : Node.Delegate)
    (config : RuntimeConfigValues) (env : EnvironmentVariables) (h : Heap)
    (port : N) (sdkPath : string) :
  gate_passes W (NodeDelegate this) h = true →
  detectFromYaml W = Resolved None →
  getPort W = Resolved port →
  require_resolve W "firebase-functions" [Node.sourceDir this] = inl sdkPath →
  detectFromPort W port ≠ Pending →
  let r := Node.discoverBuild W this config env h in
  ∃ childProcess command opts h' rest,
    trace_of r =
      lookup_trace this h ++
      [EvDetectFromYaml (Node.sourceDir this) (Node.projectId this) (Node.runtime this);
       EvGetPort;
       EvRequireResolve "firebase-functions" [Node.sourceDir this];
       EvSpawn childProcess command [Node.sourceDir this] opts;
       EvDetectFromPort port (Node.projectId this) (Node.runtime this);
       EvTeardown] ++ rest
    ∧ EvTeardown :: rest =
        trace_of (Node.run_teardown W (Node.ServeTeardown childProcess port) h')
    ∧ Forall (λ ev, is_supervision ev = true) rest
    ∧ count is_getPort (trace_of r) = 1
    ∧ count is_spawn (trace_of r) = 1
    ∧ count is_probe (trace_of r) = 1
    ∧ count is_teardown (trace_of r) = 1
    ∧ settled_of r =
        match settled_of (Node.run_teardown W (Node.ServeTeardown childProcess port) h') with
        | Resolved _ => detectFromPort W port
        | Rejected e => Rejected e
        | Pending => Pending
        end.
Proof.
  intros Hg Hy Hp Hres Hprobe r. subst r.
  rewrite (discoverBuild_gated _ _ _ _ _ Hg).
  set (h0 := with_sdkVersion _ h).
  destruct (serve_run W this port config env sdkPath h0 Hres)
    as (command & opts & Hserve & _).
  set (pid := length (procs h0)) in *.
  set (h1 := with_procs (procs h0 ++ [fresh_process]) h0) in *.
  set (h2 := heap_of (let_exit pid (child_during_probe W) h1)).
  destruct (node_run_teardown_trace W (Node.ServeTeardown pid port) h2)
    as (rest & Hrest & Hsup).
  exists pid, command, opts, h2, rest.
  assert (Hrun : Node.discover_gated W this config env h0 =
    (heap_of (Node.run_teardown W (Node.ServeTeardown pid port) h2),
     [EvDetectFromYaml (Node.sourceDir this) (Node.projectId this) (Node.runtime this);
      EvGetPort;
      EvRequireResolve "firebase-functions" [Node.sourceDir this];
      EvSpawn pid command [Node.sourceDir this] opts;
      EvDetectFromPort port (Node.projectId this) (Node.runtime this);
      EvTeardown] ++ rest,
     match settled_of (Node.run_teardown W (Node.ServeTeardown pid port) h2) with
     | Resolved _ => detectFromPort W port
     | Rejected e => Rejected e
     | Pending => Pending
     end)).
  { unfold Node.discover_gated. rewrite bind_unfold. cbn [emit].
    rewrite bind_unfold. unfold await at 1. rewrite Hy.
    rewrite bind_unfold. cbn [emit]. rewrite bind_unfold. unfold await at 1.
    rewrite Hp. rewrite bind_unfold, Hserve.
    rewrite try_finally_unfold.
    rewrite bind_unfold. cbn [emit]. rewrite bind_unfold.
    rewrite let_exit_run. fold h2. unfold await.
    destruct (detectFromPort W port) as [b|e|]; [| |done];
      cbn [prefix_trace heap_of trace_of settled_of fst snd app];
      rewrite Hrest; reflexivity. }
  rewrite Hrun, prefix_trace_trace, prefix_trace_settled.
  cbn [trace_of settled_of fst snd].
  split; [reflexivity|]. split; [by rewrite Hrest|]. split; [done|].
  rewrite !count_app, !count_lookup_trace by done.
  rewrite !(count_none _ rest) by (eapply Forall_impl; [exact Hsup|]; by intros []).
  done.
Qed.
End DiscoveryClaims.

(** * The process table under signals and exits *)

Lemma with_procs_id h : with_procs (procs h) h = h.
Proof. by destruct h. Qed.

Lemma insert_default_alter (g : ChildProcess → ChildProcess) d (l : list ChildProcess) y :
  <[y := g (default d (l !! y))]> l = alter g y l.
Proof.
  revert y. induction l as [|p l IH]; intros [|y]; simpl; try done.
  f_equal. apply IH.
Qed.

Lemma map_proc_fixed y g h :
  g (proc_at y h) = proc_at y h → map_proc y g h = h.
Proof.
  unfold map_proc, proc_at. intros Hg.
  rewrite <- (insert_default_alter g fresh_process), Hg.
  destruct (procs h !! y) as [p|] eqn:Hy; simpl.
  - rewrite list_insert_id by done. apply with_procs_id.
  - rewrite list_insert_ge by (by apply lookup_ge_None). apply with_procs_id.
Qed.

Lemma set_proc_run y p h :
  set_proc y p h = (with_procs (<[y := p]> (procs h)) h, [], Resolved tt).
Proof. reflexivity. Qed.

Lemma kill_run y s h :
  kill y s h = (map_proc y deliver h, [EvKill y s], Resolved (running (proc_at y h))).
Proof.
  unfold kill. rewrite bind_unfold. cbn [emit]. rewrite bind_unfold. cbn [get_heap].
  destruct (running (proc_at y h)) eqn:Hr.
  - rewrite bind_unfold, set_proc_run. cbn.
    unfold map_proc. rewrite <- (insert_default_alter deliver fresh_process).
    fold (proc_at y h). unfold deliver. rewrite Hr. reflexivity.
  - cbn. rewrite map_proc_fixed; [done|]. unfold deliver. by rewrite Hr.
Qed.

Lemma let_exit_heap y o h : heap_of (let_exit y o h) = map_proc y (exit_with o) h.
Proof.
  unfold let_exit. rewrite bind_unfold. cbn [get_heap]. rewrite prefix_trace_heap.
  destruct o as [st|]; cbn [exit_with].
  - destruct (running (proc_at y h)) eqn:Hr.
    + rewrite set_proc_run. unfold heap_of. cbn [fst]. unfold map_proc.
      rewrite <- (insert_default_alter _ fresh_process). fold (proc_at y h).
      unfold exit_with. by rewrite Hr.
    + cbn. rewrite map_proc_fixed; [done|]. unfold exit_with. by rewrite Hr.
  - cbn. by rewrite map_proc_fixed.
Qed.

Lemma let_exit_map y o h :
  let_exit y o h = (map_proc y (exit_with o) h, [], Resolved tt).
Proof. rewrite let_exit_run. by rewrite let_exit_heap. Qed.

Lemma holds_map_proc (φ ψ : ChildProcess → Prop) x y g h :
  holds φ x h →
  (∀ p, φ p → ψ p) → (x = y → ∀ p, φ p → ψ (g p)) →
  holds ψ x (map_proc y g h).
Proof.
  intros (p & Hp & Hφ) Hmono Hg. unfold holds, map_proc. cbn.
  destruct (decide (x = y)) as [->|Hne].
  - exists (g p). split; [|by apply Hg].
    rewrite list_lookup_alter_eq. by rewrite Hp.
  - exists p. split; [|by apply Hmono].
    by rewrite list_lookup_alter_ne.
Qed.

Lemma holds_proc_at φ x h : holds φ x h → φ (proc_at x h).
Proof. intros (p & Hp & Hφ). unfold proc_at. by rewrite Hp. Qed.

Lemma holds_valid φ x h : x < length (procs h) → φ (proc_at x h) → holds φ x h.
Proof.
  intros Hx Hφ. destruct (lookup_lt_is_Some_2 _ _ Hx) as [p Hp].
  exists p. split; [done|]. unfold proc_at in Hφ. by rewrite Hp in Hφ.
Qed.

(** * The teardown of the dart [watch], step by step *)

Lemma killProcess_run y h :
  Dart.killProcess y h =
  (map_proc y signal_if_signalable h, kill_trace "SIGTERM" y h, Resolved tt).
Proof.
  unfold Dart.killProcess, kill_trace, map_proc, signal_if_signalable.
  rewrite bind_unfold. cbn [get_heap]. rewrite prefix_trace_nil.
  destruct (Dart.signalable (proc_at y h)) eqn:Hs.
  - rewrite bind_unfold, kill_run. cbn. unfold map_proc. do 2 f_equal.
    f_equal. rewrite <- !(insert_default_alter _ fresh_process).
    fold (proc_at y h). by rewrite Hs.
  - cbn. fold (map_proc y (λ p, if Dart.signalable p then deliver p else p) h).
    rewrite map_proc_fixed; [done|]. by rewrite Hs.
Qed.

Lemma force_kill_run y h :
  Dart.force_kill y h =
  (map_proc y signal_if_signalable h, kill_trace "SIGKILL" y h, Resolved tt).
Proof.
  unfold Dart.force_kill, kill_trace, map_proc, signal_if_signalable.
  rewrite bind_unfold. cbn [get_heap]. rewrite prefix_trace_nil.
  destruct (Dart.signalable (proc_at y h)) eqn:Hs.
  - rewrite bind_unfold, kill_run. cbn. unfold map_proc. do 2 f_equal.
    f_equal. rewrite <- !(insert_default_alter _ fresh_process).
    fold (proc_at y h). by rewrite Hs.
  - cbn. fold (map_proc y (λ p, if Dart.signalable p then deliver p else p) h).
    rewrite map_proc_fixed; [done|]. by rewrite Hs.
Qed.

Lemma wait_exit_run W y h :
  Dart.wait_exit W y h =
  (map_proc y (await_exit W y) h, [],
   let p := proc_at y h in
   if Dart.considered_gone p then Resolved tt
   else if running p then
     match exits_eventually W y with Some _ => Resolved tt | None => Pending end
   else Pending).
Proof.
  unfold Dart.wait_exit. rewrite bind_unfold. cbn [get_heap]. rewrite prefix_trace_nil.
  cbn zeta.
  destruct (Dart.considered_gone (proc_at y h)) eqn:Hg.
  - cbn. rewrite map_proc_fixed; [done|]. unfold await_exit. by rewrite Hg.
  - destruct (running (proc_at y h)) eqn:Hr.
    + destruct (exits_eventually W y) as [st|] eqn:He.
      * rewrite let_exit_map. do 2 f_equal. unfold map_proc. f_equal.
        rewrite <- !(insert_default_alter _ fresh_process). fold (proc_at y h).
        unfold await_exit. by rewrite Hg, He.
      * cbn. rewrite map_proc_fixed; [done|]. unfold await_exit. by rewrite Hg, He.
    + cbn. rewrite map_proc_fixed; [done|]. unfold await_exit, exit_with.
      rewrite Hg, Hr. by destruct (exits_eventually W y).
Qed.

Lemma watch_teardown_run W a b h :
  let h1 := map_proc a signal_if_signalable h in
  let h2 := map_proc b signal_if_signalable h1 in
  let h3 := map_proc a (exit_with (exits_during_grace W a)) h2 in
  let h4 := map_proc b (exit_with (exits_during_grace W b)) h3 in
  let h5 := map_proc a signal_if_signalable h4 in
  let h6 := map_proc b signal_if_signalable h5 in
  Dart.watch_teardown W a b h =
  prefix_trace
    (kill_trace "SIGTERM" a h ++ kill_trace "SIGTERM" b h1 ++ [EvSetTimeout 2000] ++
     kill_trace "SIGKILL" a h4 ++ kill_trace "SIGKILL" b h5)
    (promise_all2 (Dart.wait_exit W a) (Dart.wait_exit W b) h6).
Proof.
  intros. unfold Dart.watch_teardown.
  rewrite bind_unfold, killProcess_run. fold h1.
  rewrite bind_unfold, killProcess_run. fold h2.
  rewrite bind_unfold. cbn [emit].
  rewrite bind_unfold, let_exit_map. fold h3.
  rewrite bind_unfold, let_exit_map. fold h4.
  rewrite bind_unfold, force_kill_run. fold h5.
  rewrite bind_unfold, force_kill_run. fold h6.
  rewrite !prefix_trace_prefix. f_equal.
  by rewrite !app_nil_r, <- !(assoc_L (++)).
Qed.

Ltac proc_cases p :=
  destruct p as [[] [] [?|] ?];
  cbn in *; repeat case_bool_decide; cbn in *; try done;
  try (intuition congruence).

Lemma gone_not_signalable p : Dart.considered_gone p = true → Dart.signalable p = false.
Proof. unfold Dart.considered_gone, Dart.signalable. proc_cases p. Qed.

Lemma gone_signal p :
  Dart.considered_gone p = true → Dart.considered_gone (signal_if_signalable p) = true.
Proof.
  unfold Dart.considered_gone, signal_if_signalable, Dart.signalable, deliver. proc_cases p.
Qed.

Lemma gone_exit_with o p :
  Dart.considered_gone p = true → Dart.considered_gone (exit_with o p) = true.
Proof.
  unfold Dart.considered_gone, exit_with, terminate.
  destruct o as [[c|s]|]; proc_cases p.
Qed.

Lemma gone_await_exit (W : World) (y : nat) (p : ChildProcess) :
  Dart.considered_gone p = true → await_exit W y p = p.
Proof. unfold await_exit. by intros ->. Qed.

Lemma reachable_signal p :
  reachable p = true → reachable (signal_if_signalable p) = true.
Proof.
  unfold reachable, signal_if_signalable, Dart.signalable, deliver. proc_cases p.
Qed.

Lemma reachable_signal_gone p :
  reachable p = true → Dart.considered_gone (signal_if_signalable p) = true.
Proof.
  unfold reachable, Dart.considered_gone, signal_if_signalable, Dart.signalable, deliver.
  proc_cases p.
Qed.

Lemma unreachable_signal p : unreachable p → unreachable (signal_if_signalable p).
Proof.
  unfold unreachable, signal_if_signalable, Dart.signalable, deliver. proc_cases p.
Qed.

Lemma unreachable_exit_with o p : unreachable p → unreachable (exit_with o p).
Proof. unfold unreachable, exit_with. destruct o; proc_cases p. Qed.

Lemma unreachable_await (W : World) (y : nat) (p : ChildProcess) :
  unreachable p → Dart.considered_gone p = false ∧ running p = false.
Proof. unfold unreachable, Dart.considered_gone. proc_cases p. Qed.

Lemma reachable_or_not p : reachable p = true ∨ unreachable p.
Proof. unfold reachable, unreachable. proc_cases p. Qed.

Lemma kill_trace_gone s y h :
  Dart.considered_gone (proc_at y h) = true → kill_trace s y h = [].
Proof. intros Hg. unfold kill_trace. by rewrite gone_not_signalable. Qed.

Lemma holds_same (φ ψ : ChildProcess → Prop) x g h :
  holds φ x h → (∀ p, φ p → ψ (g p)) → holds ψ x (map_proc x g h).
Proof.
  intros (p & Hp & Hφ) Hg. exists (g p). split; [|by apply Hg].
  unfold map_proc. cbn. rewrite list_lookup_alter_eq. by rewrite Hp.
Qed.

Lemma holds_stable (φ : ChildProcess → Prop) x y g h :
  holds φ x h → (∀ p, φ p → φ (g p)) → holds φ x (map_proc y g h).
Proof. intros Hx Hg. eapply holds_map_proc; eauto. Qed.

Lemma wait_exit_gone W y h :
  holds (λ p, Dart.considered_gone p = true) y h →
  Dart.wait_exit W y h = (h, [], Resolved tt).
Proof.
  intros Hy. apply holds_proc_at in Hy. rewrite wait_exit_run. cbn zeta.
  rewrite Hy. rewrite map_proc_fixed; [done|]. by apply gone_await_exit.
Qed.

Lemma wait_exit_never_rejects W y h e : settled_of (Dart.wait_exit W y h) ≠ Rejected e.
Proof.
  rewrite wait_exit_run. cbn.
  destruct (Dart.considered_gone _); [done|].
  destruct (running _); [|done]. by destruct (exits_eventually W y).
Qed.

Section DartTeardown.
Context (W : World) (a b : nat) (h : Heap).
Let h1 := map_proc a signal_if_signalable h.
Let h2 := map_proc b signal_if_signalable h1.
Let h3 := map_proc a (exit_with (exits_during_grace W a)) h2.
Let h4 := map_proc b (exit_with (exits_during_grace W b)) h3.
Let h5 := map_proc a signal_if_signalable h4.
Let h6 := map_proc b signal_if_signalable h5.

Lemma chain_stable (φ : ChildProcess → Prop) x :
  (∀ p, φ p → φ (signal_if_signalable p)) →
  (∀ o p, φ p → φ (exit_with o p)) →
  holds φ x h → holds φ x h6.
Proof.
  intros Hs He Hx. unfold h6, h5, h4, h3, h2, h1.
  do 6 (apply holds_stable; [|by auto]). exact Hx.
Qed.

Lemma chain_gone x :
  (x = a ∨ x = b) → holds (λ p, reachable p = true) x h →
  holds (λ p, Dart.considered_gone p = true) x h6.
Proof.
  intros Hx Hr.
  assert (holds (λ p, Dart.considered_gone p = true) x h2) as Hg.
  { destruct Hx as [->| ->].
    - apply holds_stable; [|apply gone_signal].
      eapply holds_same; [exact Hr|]. apply reachable_signal_gone.
    - eapply holds_same; [|apply reachable_signal_gone].
      apply holds_stable; [done|]. apply reachable_signal. }
  unfold h6, h5, h4, h3.
  do 4 (apply holds_stable; [|by auto using gone_signal, gone_exit_with]). exact Hg.
Qed.

Lemma watch_teardown_never_rejects e :
  settled_of (Dart.watch_teardown W a b h) ≠ Rejected e.
Proof.
  rewrite watch_teardown_run. rewrite prefix_trace_settled. fold h1 h2 h3 h4 h5 h6.
  unfold promise_all2.
  pose proof (wait_exit_never_rejects W a h6) as Ha.
  destruct (Dart.wait_exit W a h6) as [[ha ta] ra].
  pose proof (wait_exit_never_rejects W b ha) as Hb.
  destruct (Dart.wait_exit W b ha) as [[hb tb] rb]. cbn in *.
  destruct ra as [[]|ea|], rb as [[]|eb|]; try done;
    intros [= <-]; first [by apply (Ha ea) | by apply (Hb eb)].
Qed.

Lemma watch_teardown_responsive :
  holds (λ p, reachable p = true) a h →
  holds (λ p, reachable p = true) b h →
  Dart.watch_teardown W a b h =
  (h6,
   kill_trace "SIGTERM" a h ++ kill_trace "SIGTERM" b h1 ++ [EvSetTimeout 2000] ++
   kill_trace "SIGKILL" a h4 ++ kill_trace "SIGKILL" b h5,
   Resolved tt)
  ∧ holds (λ p, Dart.considered_gone p = true) a h6
  ∧ holds (λ p, Dart.considered_gone p = true) b h6.
Proof.
  intros Ha Hb.
  pose proof (chain_gone a (or_introl eq_refl) Ha) as Ga.
  pose proof (chain_gone b (or_intror eq_refl) Hb) as Gb.
  split; [|done].
  rewrite watch_teardown_run. fold h1 h2 h3 h4 h5 h6.
  unfold promise_all2. rewrite (wait_exit_gone W a h6 Ga), (wait_exit_gone W b h6 Gb).
  unfold prefix_trace. cbn. by rewrite !app_nil_r.
Qed.

Lemma watch_teardown_unreachable x :
  (x = a ∨ x = b) → holds unreachable x h →
  settled_of (Dart.watch_teardown W a b h) ≠ Resolved tt.
Proof.
  intros Hx Hu.
  assert (holds unreachable x h6) as Hu6
    by (apply chain_stable; auto using unreachable_signal, unreachable_exit_with).
  rewrite watch_teardown_run. rewrite prefix_trace_settled. fold h1 h2 h3 h4 h5 h6.
  unfold promise_all2.
  rewrite (wait_exit_run W a h6).
  set (ha := map_proc a (await_exit W a) h6).
  assert (holds unreachable x ha) as Hua.
  { apply holds_stable; [done|]. intros p Hp. unfold await_exit.
    destruct (unreachable_await W a p Hp) as [-> _]. by apply unreachable_exit_with. }
  rewrite (wait_exit_run W b ha). cbn.
  destruct Hx as [->| ->].
  - apply holds_proc_at, (unreachable_await W a) in Hu6 as [-> ->].
    by destruct (Dart.considered_gone (proc_at b ha)), (running (proc_at b ha)),
      (exits_eventually W b).
  - apply holds_proc_at, (unreachable_await W b) in Hua as [-> ->].
    by destruct (Dart.considered_gone (proc_at a h6)), (running (proc_at a h6)),
      (exits_eventually W a).
Qed.
End DartTeardown.

(** * Teardowns: when they resolve, when they can be repeated *)

Lemma fire_settled t h : ∃ d, settled_of (fire t h) = Resolved d.
Proof.
  unfold fire. rewrite bind_unfold. cbn [get_heap]. rewrite prefix_trace_settled.
  destruct (negb _); [rewrite kill_run|]; eauto.
Qed.

Lemma fire_all_settled ts h : settled_of (fire_all ts h) = Resolved tt.
Proof.
  revert h. induction ts as [|t ts IH]; intros h; [done|].
  cbn [fire_all]. rewrite bind_unfold.
  destruct (fire_settled t h) as [d Hd].
  destruct (fire t h) as [[h1 t1] r]. cbn in Hd. subst r.
  rewrite prefix_trace_settled. apply IH.
Qed.

Lemma flush_timers_settled h : settled_of (flush_timers h) = Resolved tt.
Proof.
  unfold flush_timers. rewrite bind_unfold. cbn [get_heap].
  rewrite prefix_trace_settled, bind_unfold. cbn [update].
  rewrite prefix_trace_settled. apply fire_all_settled.
Qed.




Lemma dart_run_teardown_unfold W a b h :
  Dart.run_teardown W (Dart.WatchTeardown a b) h =
  prefix_trace [EvTeardown] (Dart.watch_teardown W a b h).
Proof. unfold Dart.run_teardown. rewrite bind_unfold. reflexivity. Qed.



(** * The environment of the children *)

Section Env.
Context `{Platform}.

Lemma spawn_run command args o h :
  spawn command args o h =
  (with_procs (procs h ++ [fresh_process]) h,
   [EvSpawn (length (procs h)) command args o], Resolved (length (procs h))).
Proof. reflexivity. Qed.

Lemma serve_spawned W host this port config envs h :
  spawned_environments host (trace_of (Node.serve W this port config envs h)) =
  match require_resolve W "firebase-functions" [Node.sourceDir this] with
  | inl _ => [omap id (Node.serve_env W port config envs)]
  | inr _ => []
  end.
Proof.
  unfold Node.serve. rewrite bind_unfold. cbn [emit].
  destruct (require_resolve W _ _) as [sdkPath|e]; [|reflexivity].
  rewrite bind_unfold, spawn_run. reflexivity.
Qed.

Lemma not_listed (k : string) :
  k ≠ "NODE_ENV" → k ≠ "PATH" → k ≠ "HOME" → k ∉ ["HOME"; "PATH"; "NODE_ENV"].
Proof.
  intros ??? Hin. repeat (apply elem_of_cons in Hin as [?|Hin]; [done|]).
  by apply elem_of_nil in Hin.
Qed.

Lemma serve_env_base_lookup (W : World) (port : N) (envs : EnvironmentVariables) (k : string) :
  (<["NODE_ENV" := process_env W !! "NODE_ENV"]>
     (<["PATH" := process_env W !! "PATH"]>
        (<["HOME" := process_env W !! "HOME"]>
           (<["FUNCTIONS_CONTROL_API" := Some "true"]>
              (<["PORT" := Some (pretty port)]> (Some <$> envs)))))
   : ProcessEnv) !! k ≫= id =
  if bool_decide (k ∈ ["HOME"; "PATH"; "NODE_ENV"]) then process_env W !! k
  else if bool_decide (k = "FUNCTIONS_CONTROL_API") then Some "true"
  else if bool_decide (k = "PORT") then Some (pretty port)
  else envs !! k.
Proof.
  destruct (decide (k = "NODE_ENV")) as [->|H1].
  { rewrite lookup_insert_eq. by destruct (process_env W !! "NODE_ENV"). }
  rewrite lookup_insert_ne by done.
  destruct (decide (k = "PATH")) as [->|H2].
  { rewrite lookup_insert_eq. by destruct (process_env W !! "PATH"). }
  rewrite lookup_insert_ne by done.
  destruct (decide (k = "HOME")) as [->|H3].
  { rewrite lookup_insert_eq. by destruct (process_env W !! "HOME"). }
  rewrite lookup_insert_ne by done.
  rewrite (bool_decide_eq_false_2 (k ∈ _)) by by apply not_listed.
  destruct (decide (k = "FUNCTIONS_CONTROL_API")) as [->|H4].
  { by rewrite lookup_insert_eq. }
  rewrite lookup_insert_ne by done.
  rewrite (bool_decide_eq_false_2 (k = "FUNCTIONS_CONTROL_API")) by done.
  destruct (decide (k = "PORT")) as [->|H5].
  { by rewrite lookup_insert_eq. }
  rewrite lookup_insert_ne by done.
  rewrite (bool_decide_eq_false_2 (k = "PORT")) by done.
  rewrite lookup_fmap. by destruct (envs !! k).
Qed.

Lemma serve_env_lookup W port config envs k :
  Node.serve_env W port config envs !! k ≫= id =
  explicit_env (process_env W) port config envs k.
Proof.
  unfold Node.serve_env, explicit_env. cbn zeta.
  assert (Hlen : length config ≠ 0 ↔ config ≠ []) by (by destruct config).
  destruct (bool_decide (length config ≠ 0)) eqn:Hc.
  - apply bool_decide_eq_true in Hc. apply Hlen in Hc.
    destruct (decide (k = "CLOUD_RUNTIME_CONFIG")) as [->|Hk].
    + rewrite lookup_insert_eq. by rewrite bool_decide_eq_true_2.
    + rewrite lookup_insert_ne by done.
      rewrite bool_decide_eq_false_2 by (by intros [? _]).
      apply serve_env_base_lookup.
  - apply bool_decide_eq_false in Hc. rewrite Hlen in Hc.
    rewrite bool_decide_eq_false_2 by (by intros [_ ?]).
    apply serve_env_base_lookup.
Qed.

Lemma serve_env_agree W1 W2 port config envs :
  process_env W1 !! "HOME" = process_env W2 !! "HOME" →
  process_env W1 !! "PATH" = process_env W2 !! "PATH" →
  process_env W1 !! "NODE_ENV" = process_env W2 !! "NODE_ENV" →
  Node.serve_env W1 port config envs = Node.serve_env W2 port config envs.
Proof. unfold Node.serve_env. by intros -> -> ->. Qed.

Lemma dart_bin_run h :
  Dart.bin h = (with_bin (bin_value h) h, [], Resolved (bin_value h)).
Proof.
  unfold Dart.bin, bin_value. rewrite bind_unfold. cbn [get_heap].
  rewrite prefix_trace_nil.
  destruct (String.eqb (_bin h) "") eqn:Hb; [reflexivity|].
  cbn. by destruct h.
Qed.

Lemma dart_watch_spawned host that h :
  spawned_environments host (trace_of (Dart.watch that h)) = [host; host].
Proof.
  unfold Dart.watch.
  rewrite bind_unfold, dart_bin_run, prefix_trace_nil.
  rewrite bind_unfold, spawn_run.
  rewrite bind_unfold, dart_bin_run, prefix_trace_nil, bind_unfold, spawn_run.
  reflexivity.
Qed.
End Env.

(** * Discovery by the dart delegate *)

Lemma prefix_append n s : String.prefix n (n +:+ s) = true.
Proof.
  induction n as [|c n IH]; simpl; [by destruct s|].
  destruct (Ascii.ascii_dec c c); [exact IH|done].
Qed.

Lemma includes_here n s : includes n (n +:+ s) = true.
Proof.
  pose proof (prefix_append n s) as Hp.
  destruct (n +:+ s); simpl; simpl in Hp; by rewrite Hp.
Qed.

Lemma includes_append a n s : includes n s = true → includes n (a +:+ s) = true.
Proof.
  intros Hs. induction a as [|c a IH]; [done|].
  simpl. rewrite IH. apply orb_true_r.
Qed.

Lemma manifest_missing_names_path p : includes p (Dart.manifest_missing p) = true.
Proof. unfold Dart.manifest_missing. apply includes_append, includes_here. Qed.

Section DartDiscovery.
Context `{Platform} (W : World) (this : Dart.Delegate).

Lemma await_build_runner_run pid h :
  ∃ h', Dart.await_build_runner W pid h =
    (h', [],
     match build_runner W with
     | GenExit st =>
         match exit_listener_code st with
         | None => Resolved tt
         | Some c =>
             if bool_decide (c = 0%Z) then Resolved tt
             else Rejected (FirebaseError (Dart.build_runner_failed c))
         end
     | GenError e => Rejected e
     | GenSilent => Pending
     end).
Proof.
  unfold Dart.await_build_runner.
  destruct (build_runner W) as [st|e|]; [|by eexists|by eexists].
  rewrite bind_unfold, let_exit_map, prefix_trace_nil.
  destruct (exit_listener_code st) as [c|]; [|by eexists].
  destruct (bool_decide (c = 0%Z)); by eexists.
Qed.

(** What the call amounts to after a first read that finds no manifest. *)
Lemma discoverBuild_generates config env h :
  detectFromYaml W = Resolved None →
    let spawned :=
      [EvDetectFromYaml (Dart.yamlDir this) (Dart.projectId this) (Dart.runtime this);
       EvDebug "functions.yaml not found, running build_runner to generate it...";
       EvSpawn (length (procs h)) (bin_value h) ["run"; "build_runner"; "build"]
         (Dart.piped (Dart.sourceDir this))] in
    let reread :=
      [EvDetectFromYaml (Dart.yamlDir this) (Dart.projectId this) (Dart.runtime this)] in
    let r := Dart.discoverBuild W this config env h in
    match build_runner W with
    | GenExit st =>
        if exit_accepted st then
          trace_of r = spawned ++ reread
          ∧ settled_of r =
              match detectFromYaml_again W with
              | Resolved (Some b') => Resolved b'
              | Resolved None =>
                  Rejected (FirebaseError (Dart.manifest_missing (Dart.yamlPath this)))
              | Rejected e => Rejected e
              | Pending => Pending
              end
        else
          trace_of r = spawned
          ∧ ∃ c, st = ExitCode c ∧ c ≠ 0%Z
                 ∧ settled_of r = Rejected (FirebaseError (Dart.build_runner_failed c))
    | GenError e => trace_of r = spawned ∧ settled_of r = Rejected e
    | GenSilent => trace_of r = spawned ∧ settled_of r = Pending
    end.
Proof.
  intros Hy. pose proof (dart_bin_run h) as Hb. set (b := bin_value h) in *.
  cbn zeta.
  set (r := Dart.discoverBuild W this config env h).
  set (spawned := [_; _; _]).
  destruct (await_build_runner_run (length (procs (with_bin b h)))
              (with_procs (procs (with_bin b h) ++ [fresh_process]) (with_bin b h)))
    as [h' Hwait].
  assert (Hr : r =
    prefix_trace spawned
      (match build_runner W with
       | GenExit st =>
           if exit_accepted st then
             (h', [EvDetectFromYaml (Dart.yamlDir this) (Dart.projectId this)
                     (Dart.runtime this)],
              match detectFromYaml_again W with
              | Resolved (Some b') => Resolved b'
              | Resolved None =>
                  Rejected (FirebaseError (Dart.manifest_missing (Dart.yamlPath this)))
              | Rejected e => Rejected e
              | Pending => Pending
              end)
           else
             (h', [],
              match exit_listener_code st with
              | Some c => Rejected (FirebaseError (Dart.build_runner_failed c))
              | None => Pending
              end)
       | GenError e => (h', [], Rejected e)
       | GenSilent => (h', [], Pending)
       end)).
  { subst r spawned. unfold Dart.discoverBuild.
    rewrite bind_unfold. cbn [emit]. rewrite bind_unfold. unfold await at 1. rewrite Hy.
    rewrite bind_unfold. cbn [emit]. rewrite bind_unfold, Hb, bind_unfold, spawn_run.
    rewrite !prefix_trace_prefix. rewrite bind_unfold, Hwait.
    change ([EvDetectFromYaml (Dart.yamlDir this) (Dart.projectId this) (Dart.runtime this)]
            ++ []) with
      [EvDetectFromYaml (Dart.yamlDir this) (Dart.projectId this) (Dart.runtime this)].
    cbn [app]. f_equal.
    destruct (build_runner W) as [[c|s]|e|]; cbn [exit_listener_code exit_accepted];
      try reflexivity.
    - destruct (bool_decide (c = 0%Z)); [|reflexivity].
      rewrite prefix_trace_nil, bind_unfold. cbn [emit]. rewrite bind_unfold.
      unfold await. by destruct (detectFromYaml_again W) as [[b'|]|e|].
    - rewrite prefix_trace_nil, bind_unfold. cbn [emit]. rewrite bind_unfold.
      unfold await. by destruct (detectFromYaml_again W) as [[b'|]|e|]. }
  rewrite Hr, prefix_trace_trace, prefix_trace_settled.
  destruct (build_runner W) as [[c|s]|e|]; cbn [exit_listener_code exit_accepted];
    try (by rewrite ?app_nil_r).
  destruct (bool_decide (c = 0%Z)) eqn:Hc; [done|].
  cbn. rewrite ?app_nil_r. split; [done|]. exists c.
  by apply bool_decide_eq_false in Hc.
Qed.
End DartDiscovery.

(** C6, amended. [discoverBuild] of the dart delegate when the first read
    finds no static manifest. If the generator exits with a non-zero code,
    the call rejects with the error [build_runner failed with exit code
    <code>. ...], which names the exit code. If the generator exits with a
    code the promise accepts and the second read still finds no manifest,
    the call rejects with an error that names the expected manifest path.
    The call resolves only with a build that the second read returned. *)
Theorem generator_failure_rejects `{Platform} (W : World) (this : Dart.Delegate)
    (config : RuntimeConfigValues) (env : EnvironmentVariables) (h : Heap) :
  detectFromYaml W = Resolved None →
  let r := settled_of (Dart.discoverBuild W this config env h) in
  (∀ c, build_runner W = GenExit (ExitCode c) → c ≠ 0%Z →
     r = Rejected (FirebaseError (Dart.build_runner_failed c)))
  ∧ (∀ st, build_runner W = GenExit st → exit_accepted st = true →
       detectFromYaml_again W = Resolved None →
       r = Rejected (FirebaseError (Dart.manifest_missing (Dart.yamlPath this)))
       ∧ includes (Dart.yamlPath this) (Dart.manifest_missing (Dart.yamlPath this)) = true)
  ∧ (∀ b, r = Resolved b → detectFromYaml_again W = Resolved (Some b)).
Proof.
  intros Hy r. subst r.
  pose proof (discoverBuild_generates W this config env h Hy) as Hrun.
  cbn zeta in Hrun. split; [|split].
  - intros c Hg Hc. rewrite Hg in Hrun. cbn [exit_accepted] in Hrun.
    rewrite bool_decide_eq_false_2 in Hrun by done.
    destruct Hrun as (_ & c' & [= <-] & _ & ->). done.
  - intros st Hg Hacc Hagain. rewrite Hg, Hacc, Hagain in Hrun.
    destruct Hrun as [_ ->]. split; [done|]. apply manifest_missing_names_path.
  - intros b' Hres. destruct (build_runner W) as [st|e|].
    + destruct (exit_accepted st).
      * destruct Hrun as [_ Hs]. rewrite Hres in Hs.
        destruct (detectFromYaml_again W) as [[b''|]|e|]; congruence.
      * destruct Hrun as (_ & c & _ & _ & Hs). congruence.
    + destruct Hrun as [_ Hs]. congruence.
    + destruct Hrun as [_ Hs]. congruence.
Qed.


Lemma spawned_inherit host t :
  Forall inherits_environment t → Forall (λ E, E = host) (spawned_environments host t).
Proof.
  induction 1 as [|ev t Hev _ IH]; [constructor|].
  destruct ev; cbn; try exact IH.
  constructor; [|exact IH]. unfold child_environment. cbn in Hev. by rewrite Hev.
Qed.

Section EnvClaims.
Context `{Platform}.

Lemma emits_only_dart_bin P : emits_only P Dart.bin.
Proof. intros h. rewrite dart_bin_run. constructor. Qed.

Lemma emits_only_piped_spawn command args cwd :
  emits_only inherits_environment (spawn command args (Dart.piped cwd)).
Proof. intros h. rewrite spawn_run. by repeat constructor. Qed.

Lemma emits_only_await_build_runner P W pid :
  emits_only P (Dart.await_build_runner W pid).
Proof.
  intros h. destruct (await_build_runner_run W pid h) as [h' ->]. constructor.
Qed.

Lemma emits_only_dart_discoverBuild W this config env :
  emits_only inherits_environment (Dart.discoverBuild W this config env).
Proof.
  unfold Dart.discoverBuild.
  apply emits_only_bind; [by apply emits_only_emit|intros _].
  apply emits_only_bind; [apply emits_only_await|intros [b|]]; [apply emits_only_ret|].
  apply emits_only_bind; [by apply emits_only_emit|intros _].
  apply emits_only_bind; [apply emits_only_dart_bin|intros b].
  apply emits_only_bind; [apply emits_only_piped_spawn|intros pid].
  apply emits_only_bind; [apply emits_only_await_build_runner|intros _].
  apply emits_only_bind; [by apply emits_only_emit|intros _].
  apply emits_only_bind; [apply emits_only_await|intros [b'|]];
    [apply emits_only_ret|apply emits_only_throw].
Qed.

(** C5, amended. The child of the node delegate's [serve] gets an explicit
    environment: at most one process is spawned, and each of its variables is
    the one [explicit_env] spells out (CLOUD_RUNTIME_CONFIG from a non-empty
    config; HOME, PATH and NODE_ENV from the host; FUNCTIONS_CONTROL_API and
    PORT set by [serve]; any other variable as the caller bound it), so two
    hosts that agree on HOME, PATH and NODE_ENV give the child the same
    environment. The children of the dart delegate ([watch],
    [discoverBuild]) are spawned without an [env] option and inherit the
    whole host environment. *)
Theorem serve_child_environment_explicit (W : World) (host1 host2 : gmap string string)
    (this : Node.Delegate) (that : Dart.Delegate) (port : N)
    (config : RuntimeConfigValues) (envs : EnvironmentVariables) (h : Heap) :
  host1 !! "HOME" = host2 !! "HOME" →
  host1 !! "PATH" = host2 !! "PATH" →
  host1 !! "NODE_ENV" = host2 !! "NODE_ENV" →
  let served host :=
    spawned_environments host
      (trace_of (Node.serve (with_process_env host W) this port config envs h)) in
  served host1 = served host2
  ∧ length (served host1) ≤ 1
  ∧ Forall (λ E : gmap string string,
              ∀ k, E !! k = explicit_env host1 port config envs k) (served host1)
  ∧ spawned_environments host1 (trace_of (Dart.watch that h)) = [host1; host1]
  ∧ Forall (λ E, E = host1)
      (spawned_environments host1
         (trace_of (Dart.discoverBuild (with_process_env host1 W) that config envs h))).
Proof.
  intros Hhome Hpath Hmode served. subst served. cbn beta.
  rewrite !serve_spawned. cbn [require_resolve with_process_env].
  split; [|split; [|split; [|split]]].
  - destruct (require_resolve W "firebase-functions" [Node.sourceDir this]);
      [|reflexivity].
    rewrite (serve_env_agree (with_process_env host1 W) (with_process_env host2 W)
               port config envs Hhome Hpath Hmode).
    reflexivity.
  - destruct (require_resolve W "firebase-functions" [Node.sourceDir this]);
      cbn; lia.
  - destruct (require_resolve W "firebase-functions" [Node.sourceDir this]);
      constructor; [|constructor].
    intros k. rewrite lookup_omap. apply (serve_env_lookup (with_process_env host1 W)).
  - apply dart_watch_spawned.
  - apply spawned_inherit, emits_only_dart_discoverBuild.
Qed.
End EnvClaims.

(** * Secret access *)

Section ObjectFacts.
Import Ensure.




Lemma obj_get_elem k v o : obj_get k o = Some v → (k, v) ∈ o.
Proof.
induction o as [|[k0 v0] o IH]; cbn; [done|].
case_bool_decide; subst.
- intros [= ->]. left.
- intros Ho. right. by apply IH.
Qed.


End ObjectFacts.

Section EnsureFacts.
Import Ensure.
Context (W : World) (defaultServiceAccount : string → string) (bold : string → string).












End EnsureFacts.

(** * Secret access: what the record holds, what is granted *)

Section RecordFacts.
Import Ensure.















Lemma sets_ok_lookup k v o : sets_ok o → obj_get k o = Some v → NoDup v ∧ v ≠ [].
Proof.
  intros Hok Hg. apply obj_get_elem in Hg.
  unfold sets_ok in Hok. rewrite Forall_forall in Hok. exact (Hok _ Hg).
Qed.


Lemma sets_ok_nonempty o : sets_ok o → nonempty_sets o.
Proof. intros Hok k v Hg. by destruct (sets_ok_lookup k v o Hok Hg). Qed.



End RecordFacts.

Section SecretFacts.
Import Ensure.
Context (W : World) (defaultServiceAccount : string → string) (bold : string → string).












End SecretFacts.

Section RemovalFacts.
Import Ensure.






















End RemovalFacts.




Section AccessFacts.
Import Ensure.
Context (W : World) (defaultServiceAccount : string → string) (bold : string → string).








End AccessFacts.

(** * The teardown of the dart [watch]: escalation *)

Lemma wait_both_trace W a b h :
  trace_of (promise_all2 (Dart.wait_exit W a) (Dart.wait_exit W b) h) = [].
Proof.
  unfold promise_all2. rewrite (wait_exit_run W a h).
  cbn zeta. rewrite (wait_exit_run W b). reflexivity.
Qed.

Lemma kill_trace_elem x s signal y h :
  EvKill x s ∈ kill_trace signal y h →
  x = y ∧ s = signal ∧ Dart.signalable (proc_at y h) = true.
Proof.
  unfold kill_trace. destruct (Dart.signalable (proc_at y h)); [|by intros ?%elem_of_nil].
  by intros [= -> ->]%list_elem_of_singleton.
Qed.

Section DartEscalation.
Context (W : World) (a b : nat) (h : Heap).
Let h1 := map_proc a signal_if_signalable h.
Let h2 := map_proc b signal_if_signalable h1.
Let h3 := map_proc a (exit_with (exits_during_grace W a)) h2.
Let h4 := map_proc b (exit_with (exits_during_grace W b)) h3.
Let h5 := map_proc a signal_if_signalable h4.
Let h6 := map_proc b signal_if_signalable h5.

Lemma gone_after_sigterm x :
  (x = a ∨ x = b) → holds (λ p, reachable p = true) x h →
  holds (λ p, Dart.considered_gone p = true) x h4
  ∧ holds (λ p, Dart.considered_gone p = true) x h5.
Proof.
  intros Hx Hr.
  assert (holds (λ p, Dart.considered_gone p = true) x h2) as Hg.
  { destruct Hx as [->| ->].
    - apply holds_stable; [|apply gone_signal].
      eapply holds_same; [exact Hr|]. apply reachable_signal_gone.
    - eapply holds_same; [|apply reachable_signal_gone].
      apply holds_stable; [done|]. apply reachable_signal. }
  assert (holds (λ p, Dart.considered_gone p = true) x h4) as Hg4.
  { unfold h4, h3. do 2 (apply holds_stable; [|by auto using gone_exit_with]). exact Hg. }
  split; [exact Hg4|]. unfold h5. apply holds_stable; [exact Hg4|apply gone_signal].
Qed.

Lemma watch_teardown_trace :
  trace_of (Dart.watch_teardown W a b h) =
  kill_trace "SIGTERM" a h ++ kill_trace "SIGTERM" b h1 ++ [EvSetTimeout 2000] ++
  kill_trace "SIGKILL" a h4 ++ kill_trace "SIGKILL" b h5.
Proof.
  rewrite watch_teardown_run, prefix_trace_trace, wait_both_trace.
  by rewrite app_nil_r.
Qed.

Lemma sigkill_only_unreachable x :
  a < length (procs h) → b < length (procs h) →
  EvKill x "SIGKILL" ∈ trace_of (Dart.watch_teardown W a b h) →
  (x = a ∨ x = b) ∧ unreachable (proc_at x h).
Proof.
  intros Ha Hb. rewrite watch_teardown_trace. fold h1 h2 h3 h4 h5.
  rewrite !elem_of_app.
  intros [Hin|[Hin|[Hin|[Hin|Hin]]]].
  - by apply kill_trace_elem in Hin as (_ & [=] & _).
  - by apply kill_trace_elem in Hin as (_ & [=] & _).
  - by apply list_elem_of_singleton in Hin.
  - apply kill_trace_elem in Hin as (-> & _ & Hs). split; [by left|].
    destruct (reachable_or_not (proc_at a h)) as [Hr|Hu]; [exfalso|done].
    destruct (gone_after_sigterm a (or_introl eq_refl)) as [Hg _]; [by apply holds_valid|].
    apply holds_proc_at, gone_not_signalable in Hg. congruence.
  - apply kill_trace_elem in Hin as (-> & _ & Hs). split; [by right|].
    destruct (reachable_or_not (proc_at b h)) as [Hr|Hu]; [exfalso|done].
    destruct (gone_after_sigterm b (or_intror eq_refl)) as [_ Hg]; [by apply holds_valid|].
    apply holds_proc_at, gone_not_signalable in Hg. congruence.
Qed.

Lemma watch_teardown_pending_or_resolved :
  settled_of (Dart.watch_teardown W a b h) = Resolved tt
  ∨ settled_of (Dart.watch_teardown W a b h) = Pending.
Proof.
  pose proof (watch_teardown_never_rejects W a b h) as Hn.
  destruct (settled_of (Dart.watch_teardown W a b h)) as [[]|e|]; [by left| |by right].
  by destruct (Hn e).
Qed.

End DartEscalation.

Lemma sigkill_never_settles W a b h x :
  a < length (procs h) → b < length (procs h) →
  EvKill x "SIGKILL" ∈ trace_of (Dart.watch_teardown W a b h) →
  (x = a ∨ x = b) ∧ unreachable (proc_at x h)
  ∧ settled_of (Dart.watch_teardown W a b h) = Pending.
Proof.
  intros Ha Hb Hin.
  destruct (sigkill_only_unreachable W a b h x Ha Hb Hin) as [Hx Hu].
  split; [done|]. split; [done|].
  destruct (watch_teardown_pending_or_resolved W a b h) as [Hres|Hpen]; [|done].
  exfalso. eapply (watch_teardown_unreachable W a b h x Hx); [|exact Hres].
  by apply holds_valid; [destruct Hx as [->| ->]|].
Qed.

Lemma resolved_without_sigkill W a b h :
  a < length (procs h) → b < length (procs h) →
  settled_of (Dart.watch_teardown W a b h) = Resolved tt →
  Forall (λ ev, is_sigkill ev = false) (trace_of (Dart.watch_teardown W a b h)).
Proof.
  intros Ha Hb Hres. apply Forall_forall. intros ev Hin.
  destruct (is_sigkill ev) eqn:Hev; [exfalso|done].
  destruct ev; try discriminate. cbn in Hev. apply String.eqb_eq in Hev as ->.
  destruct (sigkill_never_settles W a b h _ Ha Hb Hin) as (_ & _ & Hpen). congruence.
Qed.

(** X13. The teardown of the dart [watch] escalates to SIGKILL only where
    it cannot act. On valid handles, a [kill("SIGKILL")] is attempted only on
    a handle whose process had already ended without an exit code and
    without [killed] set when the teardown began; there the signal is not
    delivered and the teardown never settles. Whenever the teardown resolves
    it has sent no SIGKILL. *)
Theorem watch_teardown_never_escalates (W : World) (a b : nat) (h : Heap) :
  handles_valid (DartTeardown (Dart.WatchTeardown a b)) h →
  let r := invoke W (DartTeardown (Dart.WatchTeardown a b)) h in
  (∀ x, EvKill x "SIGKILL" ∈ trace_of r →
        (x = a ∨ x = b) ∧ unreachable (proc_at x h) ∧ settled_of r = Pending)
  ∧ (settled_of r = Resolved tt → count is_sigkill (trace_of r) = 0).
Proof.
  intros [Ha Hb]. cbn [invoke]. cbn zeta.
  rewrite dart_run_teardown_unfold, prefix_trace_trace, prefix_trace_settled.
  split.
  - intros x [Hin|Hin]%elem_of_app; [by apply list_elem_of_singleton in Hin|].
    by apply sigkill_never_settles.
  - intros Hres. rewrite count_app. cbn.
    apply count_none. by apply resolved_without_sigkill.
Qed.

Lemma signalled_signal p : signalled p → signalled (signal_if_signalable p).
Proof.
  unfold signalled, signal_if_signalable, Dart.signalable, deliver. proc_cases p.
Qed.

Lemma signalable_signalled p :
  running p = true → Dart.signalable p = true → signalled (signal_if_signalable p).
Proof.
  unfold signalled, signal_if_signalable, Dart.signalable, deliver. proc_cases p.
Qed.

Lemma signalled_reachable p : signalled p → reachable p = true.
Proof. unfold signalled, reachable. proc_cases p. Qed.

Lemma signalled_gone p : signalled p → Dart.considered_gone p = true.
Proof. unfold signalled, Dart.considered_gone. proc_cases p. Qed.

Lemma killed_signal p : killed p = true → killed (signal_if_signalable p) = true.
Proof. unfold signal_if_signalable, Dart.signalable, deliver. proc_cases p. Qed.

Lemma killed_exit_with o p : killed p = true → killed (exit_with o p) = true.
Proof. unfold exit_with, terminate. destruct o as [[c|s]|]; proc_cases p. Qed.

Lemma holds_impl (φ ψ : ChildProcess → Prop) x h :
  holds φ x h → (∀ p, φ p → ψ p) → holds ψ x h.
Proof. intros (p & Hp & Hφ) Himpl. exists p. auto. Qed.

Section DartOrphan.
Context (W : World) (a b : nat) (h : Heap).
Let h1 := map_proc a signal_if_signalable h.
Let h2 := map_proc b signal_if_signalable h1.
Let h3 := map_proc a (exit_with (exits_during_grace W a)) h2.
Let h4 := map_proc b (exit_with (exits_during_grace W b)) h3.
Let h5 := map_proc a signal_if_signalable h4.
Let h6 := map_proc b signal_if_signalable h5.

Lemma sigterm_delivered x :
  (x = a ∨ x = b) →
  holds (λ p, running p = true ∧ Dart.signalable p = true) x h →
  holds signalled x h2.
Proof.
  intros Hx Hp. destruct Hx as [->| ->].
  - apply holds_stable; [|apply signalled_signal].
    eapply holds_same; [exact Hp|]. intros p [? ?]. by apply signalable_signalled.
  - eapply holds_same; [|intros p Hq; exact Hq].
    eapply holds_map_proc; [exact Hp| |].
    + intros p [Hr Hs]. by apply signalable_signalled.
    + intros _ p [Hr Hs]. apply signalled_signal. by apply signalable_signalled.
Qed.

Lemma running_child_killed x :
  (x = a ∨ x = b) →
  holds (λ p, running p = true ∧ Dart.signalable p = true) x h →
  holds (λ p, killed p = true) x h6.
Proof.
  intros Hx Hp. pose proof (sigterm_delivered x Hx Hp) as H2.
  unfold h6, h5, h4, h3.
  do 4 (apply holds_stable; [|by auto using killed_signal, killed_exit_with]).
  eapply holds_impl; [exact H2|]. by intros p [_ ?].
Qed.

Lemma ignoring_child_signalled x :
  (x = a ∨ x = b) →
  holds (λ p, running p = true ∧ Dart.signalable p = true) x h →
  exits_during_grace W x = None →
  holds signalled x h6.
Proof.
  intros Hx Hp Hgrace. pose proof (sigterm_delivered x Hx Hp) as H2.
  assert (holds signalled x h4) as H4.
  { unfold h4, h3.
    eapply holds_map_proc; [|intros p Hq; exact Hq|].
    - eapply holds_map_proc; [exact H2|intros p Hq; exact Hq|].
      intros <- p Hq. by rewrite Hgrace.
    - intros <- p Hq. by rewrite Hgrace. }
  unfold h6, h5. do 2 (apply holds_stable; [|apply signalled_signal]). exact H4.
Qed.

End DartOrphan.

Lemma proc_at_map_proc_ne x y g h : x ≠ y → proc_at x (map_proc y g h) = proc_at x h.
Proof. intros Hne. unfold proc_at, map_proc. cbn. by rewrite list_lookup_alter_ne. Qed.

Lemma kill_trace_signalable signal y h :
  Dart.signalable (proc_at y h) = true → kill_trace signal y h = [EvKill y signal].
Proof. intros Hs. unfold kill_trace. by rewrite Hs. Qed.

Lemma responsive_valid W a b h :
  responsive W (DartTeardown (Dart.WatchTeardown a b)) h →
  a < length (procs h) ∧ b < length (procs h).
Proof.
  intros [(pa & Ha & _) (pb & Hb & _)].
  split; eapply lookup_lt_Some; eassumption.
Qed.

(** X14. The teardown of the dart [watch] does not wait for a child that
    ignores SIGTERM. When both handles answer and a child that is running
    with [killed] unset does not exit during the two seconds of grace, the
    teardown sends it SIGTERM, sends no SIGKILL, and resolves while that
    child is still running: [killed], set by the delivered SIGTERM, satisfies
    both the guard of the forced kill and the test of the final wait. *)
Theorem watch_teardown_leaves_ignoring_child_running
    (W : World) (a b x : nat) (h : Heap) :
  responsive W (DartTeardown (Dart.WatchTeardown a b)) h →
  (x = a ∨ x = b) →
  running (proc_at x h) = true →
  Dart.signalable (proc_at x h) = true →
  exits_during_grace W x = None →
  let r := invoke W (DartTeardown (Dart.WatchTeardown a b)) h in
  settled_of r = Resolved tt
  ∧ running (proc_at x (heap_of r)) = true
  ∧ killed (proc_at x (heap_of r)) = true
  ∧ EvKill x "SIGTERM" ∈ trace_of r
  ∧ count is_sigkill (trace_of r) = 0.
Proof.
  intros Hresp Hx Hrun Hsig Hgrace. cbn [invoke]. cbn zeta.
  destruct (responsive_valid W a b h Hresp) as [Ha Hb].
  destruct Hresp as [Ra Rb].
  rewrite dart_run_teardown_unfold, prefix_trace_trace, prefix_trace_settled,
    prefix_trace_heap.
  destruct (watch_teardown_responsive W a b h Ra Rb) as (Hrun6 & _ & _).
  assert (Hres : settled_of (Dart.watch_teardown W a b h) = Resolved tt)
    by (by rewrite Hrun6).
  assert (Hp : holds (λ p, running p = true ∧ Dart.signalable p = true) x h).
  { apply holds_valid; [by destruct Hx as [->| ->]|done]. }
  pose proof (ignoring_child_signalled W a b h x Hx Hp Hgrace) as H6.
  apply holds_proc_at in H6 as [Hr6 Hk6].
  split; [done|]. rewrite Hrun6 at 1 2. cbn [heap_of fst].
  split; [exact Hr6|]. split; [exact Hk6|]. split.
  - apply elem_of_app. right. rewrite Hrun6. cbn [trace_of fst snd].
    destruct (decide (x = a)) as [->|Hne].
    + apply elem_of_app. left. rewrite kill_trace_signalable by done. left.
    + destruct Hx as [->| ->]; [done|].
      apply elem_of_app. right. apply elem_of_app. left.
      rewrite kill_trace_signalable; [left|]. by rewrite proc_at_map_proc_ne.
  - rewrite count_app. cbn. apply count_none. by apply resolved_without_sigkill.
Qed.

Lemma bin_value_with_bin h : bin_value (with_bin (bin_value h) h) = bin_value h.
Proof.
  unfold bin_value. cbn. destruct (String.eqb (_bin h) "") eqn:Hb; [done|].
  by rewrite Hb.
Qed.

Lemma dart_watch_run `{Platform} (this : Dart.Delegate) h :
  let n := length (procs h) in
  Dart.watch this h =
  (with_procs (procs h ++ [fresh_process; fresh_process]) (with_bin (bin_value h) h),
   [EvSpawn n (bin_value h) ["run"; Dart.sourceDir this] (Dart.piped (Dart.sourceDir this));
    EvSpawn (S n) (bin_value h) ["run"; "build_runner"; "watch"; "-d"]
      (Dart.piped (Dart.sourceDir this))],
   Resolved (Dart.WatchTeardown n (S n))).
Proof.
  cbn zeta. unfold Dart.watch.
  rewrite bind_unfold, dart_bin_run, prefix_trace_nil.
  rewrite bind_unfold, spawn_run.
  rewrite bind_unfold, dart_bin_run, prefix_trace_nil, bind_unfold, spawn_run.
  cbn -[bin_value]. rewrite !length_app. cbn -[bin_value].
  change (bin_value (with_procs ?ps ?h0)) with (bin_value h0).
  rewrite bin_value_with_bin, Nat.add_1_r, <- (assoc_L (++)).
  reflexivity.
Qed.

Lemma proc_at_spawned h0 (ps : list ChildProcess) p :
  proc_at (length ps) (with_procs (ps ++ [p; fresh_process]) h0) = p
  ∧ proc_at (S (length ps)) (with_procs (ps ++ [p; fresh_process]) h0) = fresh_process.
Proof.
  unfold proc_at. cbn. split.
  - by rewrite lookup_app_r, Nat.sub_diag by lia.
  - rewrite lookup_app_r by lia. by replace (S (length ps) - length ps) with 1 by lia.
Qed.

(** X15. [watch] of the dart delegate followed at once by its teardown.
    From any heap the two children are spawned with the executable of [bin]
    in the source directory, the teardown sends each of them SIGTERM once,
    arms the timer of two seconds, sends nothing else and resolves, whatever
    the children do; both handles are then marked [killed]. *)
Theorem watch_then_teardown_resolves `{Platform} (W : World) (this : Dart.Delegate) (h : Heap) :
  let r := (k ← Dart.watch this; invoke W (DartTeardown k)) h in
  let n := length (procs h) in
  settled_of r = Resolved tt
  ∧ trace_of r =
      [EvSpawn n (bin_value h) ["run"; Dart.sourceDir this]
         (Dart.piped (Dart.sourceDir this));
       EvSpawn (S n) (bin_value h) ["run"; "build_runner"; "watch"; "-d"]
         (Dart.piped (Dart.sourceDir this));
       EvTeardown; EvKill n "SIGTERM"; EvKill (S n) "SIGTERM"; EvSetTimeout 2000]
  ∧ length (procs (heap_of r)) = n + 2
  ∧ killed (proc_at n (heap_of r)) = true
  ∧ killed (proc_at (S n) (heap_of r)) = true.
Proof.
  cbn zeta. rewrite bind_unfold, dart_watch_run. cbn [invoke].
  set (n := length (procs h)).
  set (h' := with_procs _ _).
  rewrite dart_run_teardown_unfold, !prefix_trace_prefix.
  destruct (proc_at_spawned (with_bin (bin_value h) h) (procs h) fresh_process)
    as [Hn HSn]. fold n h' in Hn, HSn.
  assert (Hlen : length (procs h') = n + 2).
  { unfold h'. cbn. rewrite length_app. cbn. lia. }
  assert (Hpn : holds (λ p, running p = true ∧ Dart.signalable p = true) n h').
  { apply holds_valid; [lia|]. by rewrite Hn. }
  assert (HpSn : holds (λ p, running p = true ∧ Dart.signalable p = true) (S n) h').
  { apply holds_valid; [lia|]. by rewrite HSn. }
  assert (Rn : holds (λ p, reachable p = true) n h').
  { eapply holds_impl; [exact Hpn|]. intros p [Hr _]. unfold reachable. by rewrite Hr. }
  assert (RSn : holds (λ p, reachable p = true) (S n) h').
  { eapply holds_impl; [exact HpSn|]. intros p [Hr _]. unfold reachable. by rewrite Hr. }
  destruct (watch_teardown_responsive W n (S n) h' Rn RSn) as (Hrun & _ & _).
  destruct (gone_after_sigterm W n (S n) h' n (or_introl eq_refl) Rn) as [G4 _].
  destruct (gone_after_sigterm W n (S n) h' (S n) (or_intror eq_refl) RSn) as [_ G5].
  pose proof (running_child_killed W n (S n) h' n (or_introl eq_refl) Hpn) as Kn.
  pose proof (running_child_killed W n (S n) h' (S n) (or_intror eq_refl) HpSn) as KSn.
  rewrite Hrun.
  rewrite (kill_trace_signalable "SIGTERM" n h') by (by rewrite Hn).
  rewrite (kill_trace_signalable "SIGTERM" (S n))
    by (rewrite proc_at_map_proc_ne by lia; by rewrite HSn).
  rewrite (kill_trace_gone "SIGKILL" n) by (by apply holds_proc_at in G4).
  rewrite (kill_trace_gone "SIGKILL" (S n)) by (by apply holds_proc_at in G5).
  cbn [prefix_trace heap_of trace_of settled_of fst snd app].
  split; [done|]. split; [done|].
  split; [|split; [by apply holds_proc_at in Kn|by apply holds_proc_at in KSn]].
  unfold map_proc. cbn. by rewrite !length_alter.
Qed.


(** * Discovery and the process it starts *)

Section DartGenerator.
Context `{Platform} (W : World) (this : Dart.Delegate).

(** X16. [discoverBuild] of the dart delegate and its generator. The call
    spawns at most one process, and spawns it exactly when the first read
    finds no manifest; it never signals that process. The manifest is read a
    second time exactly when the generator exits with a code the promise
    accepts. A generator that emits nothing leaves the call pending for ever,
    an [error] event of the generator rejects the call with that error, and a
    first read that fails or finds a manifest decides the call by itself. *)
Theorem dart_discoverBuild_generator_unsupervised
    (config : RuntimeConfigValues) (env : EnvironmentVariables) (h : Heap) :
  let r := Dart.discoverBuild W this config env h in
  let t := trace_of r in
  count is_spawn t ≤ 1
  ∧ count is_kill t = 0
  ∧ (count is_spawn t = 1 ↔ detectFromYaml W = Resolved None)
  ∧ (count is_static_read t = 2 ↔
     detectFromYaml W = Resolved None
     ∧ ∃ st, build_runner W = GenExit st ∧ exit_accepted st = true)
  ∧ (detectFromYaml W = Resolved None → build_runner W = GenSilent →
     settled_of r = Pending)
  ∧ (∀ e, detectFromYaml W = Resolved None → build_runner W = GenError e →
     settled_of r = Rejected e)
  ∧ (detectFromYaml W ≠ Resolved None →
     settled_of r =
       match detectFromYaml W with
       | Resolved (Some b) => Resolved b
       | Resolved None => Pending
       | Rejected e => Rejected e
       | Pending => Pending
       end).
Proof.
  cbn zeta.
  destruct (detectFromYaml W) as [[b|]|e|] eqn:Hy.
  1,3,4: unfold Dart.discoverBuild; rewrite bind_unfold; cbn [emit];
    rewrite bind_unfold; unfold await at 1; rewrite Hy; cbn;
    (split; [lia|]); (split; [done|]); (split; [done|]);
    (split; [split; [done|by intros [? _]]|]); done.
  pose proof (discoverBuild_generates W this config env h Hy) as Hrun.
  cbn zeta in Hrun.
  destruct (build_runner W) as [st|e|] eqn:Hg.
  - destruct (exit_accepted st) eqn:Hacc.
    + destruct Hrun as [-> _]. cbn.
      split; [lia|]. split; [done|]. split; [done|]. split; [|done].
      split; [|done]. intros _. split; [done|]. by exists st.
    + destruct Hrun as (-> & _). cbn.
      split; [lia|]. split; [done|]. split; [done|]. split; [|done].
      split; [done|]. intros (_ & st' & [= <-] & Hacc'). congruence.
  - destruct Hrun as [-> Hs]. cbn.
    split; [lia|]. split; [done|]. split; [done|]. split.
    { split; [done|]. by intros (_ & st' & [=] & _). }
    split; [done|]. split; [|done]. by intros e' _ [= <-].
  - destruct Hrun as [-> Hs]. cbn.
    split; [lia|]. split; [done|]. split; [done|]. split.
    { split; [done|]. by intros (_ & st' & [=] & _). }
    done.
Qed.
End DartGenerator.

Section NodeSupervision.
Context `{Platform} (W : World) (this : Node.Delegate).

Lemma teardown_counts k h :
  count is_spawn (trace_of (Node.run_teardown W k h)) = 0
  ∧ count is_teardown (trace_of (Node.run_teardown W k h)) = 1
  ∧ count is_getPort (trace_of (Node.run_teardown W k h)) = 0.
Proof.
  destruct (node_run_teardown_trace W k h) as (rest & -> & Hsup).
  change (EvTeardown :: rest) with ([EvTeardown] ++ rest).
  rewrite !count_app.
  rewrite !(count_none _ rest) by (eapply Forall_impl; [exact Hsup|]; by intros []).
  done.
Qed.

(** The gated part of the discovery once a port is there and the SDK binary
    is found. *)
Lemma discover_gated_live config env h port sdkPath :
  detectFromYaml W = Resolved None →
  getPort W = Resolved port →
  require_resolve W "firebase-functions" [Node.sourceDir this] = inl sdkPath →
  ∃ command opts,
    let pid := length (procs h) in
    let started :=
      [EvDetectFromYaml (Node.sourceDir this) (Node.projectId this) (Node.runtime this);
       EvGetPort;
       EvRequireResolve "firebase-functions" [Node.sourceDir this];
       EvSpawn pid command [Node.sourceDir this] opts;
       EvDetectFromPort port (Node.projectId this) (Node.runtime this)] in
    let h2 := heap_of (let_exit pid (child_during_probe W)
                         (with_procs (procs h ++ [fresh_process]) h)) in
    let fin := Node.run_teardown W (Node.ServeTeardown pid port) h2 in
    Node.discover_gated W this config env h =
    match detectFromPort W port with
    | Pending => (h2, started, Pending)
    | probed =>
        (heap_of fin, started ++ trace_of fin,
         match settled_of fin with
         | Resolved _ => probed
         | Rejected e => Rejected e
         | Pending => Pending
         end)
    end.
Proof.
  intros Hy Hp Hres.
  destruct (serve_run W this port config env sdkPath h Hres) as (command & opts & Hserve & _).
  exists command, opts. cbn zeta.
  unfold Node.discover_gated. rewrite bind_unfold. cbn [emit].
  rewrite bind_unfold. unfold await at 1. rewrite Hy.
  rewrite bind_unfold. cbn [emit]. rewrite bind_unfold. unfold await at 1.
  rewrite Hp. rewrite bind_unfold, Hserve.
  rewrite try_finally_unfold.
  rewrite bind_unfold. cbn [emit]. rewrite bind_unfold.
  rewrite let_exit_run. unfold await.
  destruct (detectFromPort W port) as [b|e|]; reflexivity.
Qed.

Lemma discover_gated_static config env h :
  detectFromYaml W ≠ Resolved None →
  Node.discover_gated W this config env h =
  (h,
   [EvDetectFromYaml (Node.sourceDir this) (Node.projectId this) (Node.runtime this)],
   match detectFromYaml W with
   | Resolved (Some b) => Resolved b
   | Rejected e => Rejected e
   | _ => Pending
   end).
Proof.
  intros Hy.
  unfold Node.discover_gated. rewrite bind_unfold. cbn [emit].
  rewrite bind_unfold. unfold await at 1.
  by destruct (detectFromYaml W) as [[b|]|e|].
Qed.

Lemma discover_gated_no_port config env h :
  detectFromYaml W = Resolved None →
  (∀ port, getPort W ≠ Resolved port) →
  Node.discover_gated W this config env h =
  (h,
   [EvDetectFromYaml (Node.sourceDir this) (Node.projectId this) (Node.runtime this);
    EvGetPort],
   match getPort W with
   | Rejected e => Rejected e
   | _ => Pending
   end).
Proof.
  intros Hy Hp.
  unfold Node.discover_gated. rewrite bind_unfold. cbn [emit].
  rewrite bind_unfold. unfold await at 1. rewrite Hy.
  rewrite bind_unfold. cbn [emit]. rewrite bind_unfold. unfold await at 1.
  destruct (getPort W) as [port|e|]; [by destruct (Hp port)|done|done].
Qed.

Lemma discover_gated_no_sdk config env h port e :
  detectFromYaml W = Resolved None →
  getPort W = Resolved port →
  require_resolve W "firebase-functions" [Node.sourceDir this] = inr e →
  Node.discover_gated W this config env h =
  (h,
   [EvDetectFromYaml (Node.sourceDir this) (Node.projectId this) (Node.runtime this);
    EvGetPort;
    EvRequireResolve "firebase-functions" [Node.sourceDir this]],
   Rejected e).
Proof.
  intros Hy Hp Hres.
  unfold Node.discover_gated. rewrite bind_unfold. cbn [emit].
  rewrite bind_unfold. unfold await at 1. rewrite Hy.
  rewrite bind_unfold. cbn [emit]. rewrite bind_unfold. unfold await at 1.
  rewrite Hp. rewrite bind_unfold, (serve_fails W this port config env e) by done.
  reflexivity.
Qed.

Lemma discover_gated_supervision config env h :
  let r := Node.discover_gated W this config env h in
  let t := trace_of r in
  count is_spawn t ≤ 1
  ∧ count is_getPort t ≤ 1
  ∧ count is_teardown t ≤ count is_spawn t
  ∧ (settled_of r ≠ Pending → count is_teardown t = count is_spawn t)
  ∧ (count is_teardown t < count is_spawn t →
     ∃ port, getPort W = Resolved port ∧ detectFromPort W port = Pending).
Proof.
  cbn zeta.
  destruct (detectFromYaml W) as [[b|]|e|] eqn:Hy.
  1,3,4: rewrite discover_gated_static by (by rewrite Hy); cbn;
    do 3 (split; [lia|]); (split; [intros; lia|intros; lia]).
  destruct (getPort W) as [port|e|] eqn:Hp.
  2,3: rewrite discover_gated_no_port by (done || by rewrite Hp); cbn;
    do 3 (split; [lia|]); (split; [intros; lia|intros; lia]).
  destruct (require_resolve W "firebase-functions" [Node.sourceDir this])
    as [sdkPath|e] eqn:Hres.
  - destruct (discover_gated_live config env h port sdkPath Hy Hp Hres)
      as (command & opts & Hrun). cbn zeta in Hrun. rewrite Hrun. clear Hrun.
    set (fin := Node.run_teardown W _ _).
    destruct (teardown_counts (Node.ServeTeardown (length (procs h)) port)
                (heap_of (let_exit (length (procs h)) (child_during_probe W)
                            (with_procs (procs h ++ [fresh_process]) h))))
      as (Hs & Ht & Hg). fold fin in Hs, Ht, Hg.
    destruct (detectFromPort W port) as [b|e|] eqn:Hprobe;
      cbn [trace_of settled_of fst snd]; rewrite ?count_app, ?Hs, ?Ht, ?Hg; cbn;
      (split; [lia|]); (split; [lia|]); (split; [lia|]);
      (split; [first [lia|by intros []]|]); first [intros; lia|idtac].
    intros _. by exists port.
  - rewrite (discover_gated_no_sdk config env h port e Hy Hp Hres).
    cbn. do 3 (split; [lia|]). split; intros; lia.
Qed.

End NodeSupervision.

Section NodeSupervisionClaims.
Context `{Platform}.

(** X6. [discoverBuild] of the node delegate tears down what it starts. In
    every environment the call requests at most one port and spawns at most
    one process, the teardown is invoked at most as often as a process was
    spawned, and when the call settles it was invoked exactly as often. A
    process is left without teardown only when the probe of the port never
    settles, and then the call never settles either. *)
Theorem node_discoverBuild_tears_down_what_it_starts (W : World) (this : Node.Delegate)
    (config : RuntimeConfigValues) (env : EnvironmentVariables) (h : Heap) :
  let r := Node.discoverBuild W this config env h in
  let t := trace_of r in
  count is_spawn t ≤ 1
  ∧ count is_getPort t ≤ 1
  ∧ count is_teardown t ≤ count is_spawn t
  ∧ (settled_of r ≠ Pending → count is_teardown t = count is_spawn t)
  ∧ (count is_teardown t < count is_spawn t →
     ∃ port, getPort W = Resolved port ∧ detectFromPort W port = Pending).
Proof.
  cbn zeta. rewrite discoverBuild_unfold. cbn zeta.
  set (v := Node.resolved_version W this h).
  set (h' := with_sdkVersion (Some v) h).
  rewrite !prefix_trace_trace, !prefix_trace_settled.
  rewrite !count_app, !count_lookup_trace by done.
  destruct (negb (Node.truthy (semver_valid v))).
  { rewrite parseTriggers_run. cbn.
    do 3 (split; [lia|]). split; [lia|intros; lia]. }
  destruct (semver_lt v Node.MIN_FUNCTIONS_SDK_VERSION).
  { rewrite parseTriggers_run. cbn.
    do 3 (split; [lia|]). split; [lia|intros; lia]. }
  cbn [Nat.add].
  exact (discover_gated_supervision W this config env h').
Qed.
End NodeSupervisionClaims.

(** * The teardown of [serve]: the request, the timer *)

Lemma flush_timers_sigkill h :
  Forall (λ ev, is_sigkill ev = true) (trace_of (flush_timers h)).
Proof.
  unfold flush_timers. rewrite bind_unfold. cbn [get_heap].
  rewrite prefix_trace_trace, bind_unfold. cbn [update]. rewrite prefix_trace_trace.
  cbn [app]. generalize (with_timers [] h). generalize (timers h).
  intros ts. induction ts as [|t ts IH]; intros h0; [constructor|].
  cbn [fire_all]. rewrite bind_unfold.
  assert (Hfire : ∃ d, Forall (λ ev, is_sigkill ev = true) (trace_of (fire t h0))
                       ∧ settled_of (fire t h0) = Resolved d).
  { unfold fire. rewrite bind_unfold. cbn [get_heap]. rewrite prefix_trace_nil.
    destruct (negb _); [rewrite kill_run|]; eexists; (split; [|reflexivity]);
      by repeat constructor. }
  destruct Hfire as (d & Ht & Hs).
  destruct (fire t h0) as [[h1 t1] r1]. cbn in Ht, Hs. subst r1.
  rewrite prefix_trace_trace. apply Forall_app. split; [done|apply IH].
Qed.

(** X8. The teardown of [serve] signals only after the quit request has been
    answered. Its trace begins with the request; when the request is
    rejected or never answered the teardown ends there, with the heap as it
    was: no timer is armed and no signal is sent, so a child that is still
    running is left running. When the request resolves the timer of ten
    seconds is armed next, and whatever follows is a SIGKILL. *)
Theorem serve_teardown_asks_before_signalling
    (W : World) (childProcess : nat) (port : N) (h : Heap) :
  let r := invoke W (NodeTeardown (Node.ServeTeardown childProcess port)) h in
  match fetch W (Node.quit_url port) with
  | Resolved _ =>
      ∃ kills,
        trace_of r =
          [EvTeardown; EvFetch (Node.quit_url port); EvSetTimeout 10000] ++ kills
        ∧ Forall (λ ev, is_sigkill ev = true) kills
  | Rejected e => r = (h, [EvTeardown; EvFetch (Node.quit_url port)], Rejected e)
  | Pending => r = (h, [EvTeardown; EvFetch (Node.quit_url port)], Pending)
  end.
Proof.
  cbn [invoke]. cbn zeta. unfold Node.run_teardown. rewrite bind_unfold. cbn [emit].
  unfold Node.serve_teardown. rewrite bind_unfold. cbn [emit].
  rewrite bind_unfold. unfold await at 1.
  destruct (fetch W (Node.quit_url port)) as [[]|e|]; [|done|done].
  rewrite bind_unfold. cbn [emit]. rewrite bind_unfold. cbn [update].
  rewrite bind_unfold. cbn [get_heap].
  rewrite !prefix_trace_prefix, prefix_trace_trace. cbn [app].
  eexists. split; [reflexivity|].
  set (h' := with_timers _ h).
  destruct (running (proc_at childProcess h')); [|constructor].
  destruct (child_after_quit W) as [st|e|].
  - rewrite let_exit_run. constructor.
  - constructor.
  - rewrite bind_unfold.
    pose proof (flush_timers_sigkill h') as Hk.
    pose proof (flush_timers_settled h') as Hs.
    destruct (flush_timers h') as [[hf tf] rf]. cbn in Hk, Hs. subst rf.
    rewrite prefix_trace_trace. apply Forall_app. split; [done|].
    destruct (killed _); [constructor|rewrite let_exit_run; constructor].
Qed.

Lemma fire_ended x t h :
  holds ended_unsignalled x h →
  holds ended_unsignalled x (heap_of (fire t h))
  ∧ (timer_target t = x → trace_of (fire t h) = [EvKill x "SIGKILL"]).
Proof.
  intros Hx. unfold fire. rewrite bind_unfold. cbn [get_heap].
  rewrite prefix_trace_heap, prefix_trace_trace. cbn [app].
  destruct (negb (killed (proc_at (timer_target t) h))) eqn:Hk.
  - rewrite kill_run. cbn [heap_of trace_of fst snd]. split.
    + eapply holds_map_proc; [exact Hx|done|].
      intros _ p [Hr Hkl]. unfold deliver. by rewrite Hr.
    + intros Ht. by subst x.
  - cbn. split; [done|]. intros Ht. subst x. apply holds_proc_at in Hx as [_ Hkl].
    rewrite Hkl in Hk. done.
Qed.

Lemma fire_all_last x ts t h :
  holds ended_unsignalled x h → timer_target t = x →
  EvKill x "SIGKILL" ∈ trace_of (fire_all (ts ++ [t]) h).
Proof.
  revert h. induction ts as [|t0 ts IH]; intros h Hx Ht; cbn [app fire_all].
  - rewrite bind_unfold.
    destruct (fire_ended x t h Hx) as [_ Htr]. specialize (Htr Ht).
    destruct (fire_settled t h) as [d Hd].
    destruct (fire t h) as [[h1 t1] r1]. cbn in Htr, Hd. subst.
    rewrite prefix_trace_trace. apply elem_of_app. left. left.
  - rewrite bind_unfold.
    destruct (fire_ended x t0 h Hx) as [Hx1 _].
    destruct (fire_settled t0 h) as [d Hd].
    destruct (fire t0 h) as [[h1 t1] r1]. cbn in Hx1, Hd. subst.
    rewrite prefix_trace_trace. apply elem_of_app. right. by apply IH.
Qed.

(** X9. The teardown of [serve] never clears its timer. After a teardown
    whose quit request resolved and whose child then exited by itself, the
    call has resolved, the child has ended, and the timer of ten seconds is
    still armed; when the timers fire, a [kill("SIGKILL")] is attempted on
    the handle of the child that has exited, unless [killed] was set. *)
Theorem serve_teardown_never_clears_its_timer
    (W : World) (childProcess : nat) (port : N) (st : ExitStatus) (h : Heap) :
  childProcess < length (procs h) →
  fetch W (Node.quit_url port) = Resolved tt →
  running (proc_at childProcess h) = true →
  child_after_quit W = ReactExit st →
  let r := invoke W (NodeTeardown (Node.ServeTeardown childProcess port)) h in
  settled_of r = Resolved tt
  ∧ running (proc_at childProcess (heap_of r)) = false
  ∧ timers (heap_of r) =
      timers h ++ [{| timer_ms := 10000; timer_target := childProcess |}]
  ∧ (killed (proc_at childProcess h) = false →
     EvKill childProcess "SIGKILL" ∈ trace_of (flush_timers (heap_of r))).
Proof.
  intros Hv Hfetch Hrun Hreact. cbn [invoke]. cbn zeta.
  set (t := {| timer_ms := 10000; timer_target := childProcess |}).
  assert (Hr : Node.run_teardown W (Node.ServeTeardown childProcess port) h =
               (map_proc childProcess (exit_with (Some st)) (with_timers (timers h ++ [t]) h),
                [EvTeardown; EvFetch (Node.quit_url port); EvSetTimeout 10000],
                Resolved tt)).
  { unfold Node.run_teardown. rewrite bind_unfold. cbn [emit].
    unfold Node.serve_teardown. rewrite bind_unfold. cbn [emit].
    rewrite bind_unfold. unfold await at 1. rewrite Hfetch.
    rewrite bind_unfold. cbn [emit]. rewrite bind_unfold. cbn [update].
    rewrite bind_unfold. cbn [get_heap].
    change (proc_at childProcess (with_timers _ h)) with (proc_at childProcess h).
    rewrite Hrun, Hreact, let_exit_map. reflexivity. }
  rewrite Hr. cbn [heap_of trace_of settled_of fst snd].
  set (h' := map_proc _ _ _).
  assert (Hp : holds (λ p, running p = false ∧ killed p = killed (proc_at childProcess h))
                 childProcess h').
  { eapply holds_same.
    - apply (holds_valid (λ p, p = proc_at childProcess h)); [exact Hv|reflexivity].
    - intros p ->. cbn [exit_with]. rewrite Hrun. by destruct st. }
  pose proof (holds_proc_at _ _ _ Hp) as Hpa. cbn beta in Hpa. destruct Hpa as [Hr' Hk'].
  refine (conj eq_refl (conj Hr' (conj eq_refl _))).
  intros Hk. unfold flush_timers. rewrite bind_unfold. cbn [get_heap].
  rewrite prefix_trace_trace, bind_unfold. cbn [update]. rewrite prefix_trace_trace.
  cbn [app]. change (timers h') with (timers h ++ [t]).
  apply fire_all_last; [|done].
  eapply holds_impl; [exact Hp|].
  intros p [Hr0 Hk0]. split; [exact Hr0|by rewrite Hk0].
Qed.

(** * The binary that [serve] runs *)

Lemma prefix_split n s : String.prefix n s = true → ∃ post, s = n +:+ post.
Proof.
  revert s. induction n as [|c n IH]; intros s; [by exists s|].
  destruct s as [|c' s]; cbn; [done|].
  destruct (Ascii.ascii_dec c c') as [<-|]; [|done].
  intros Hp. destruct (IH s Hp) as [post ->]. by exists post.
Qed.

Lemma substring_whole n : String.substring 0 (String.length n) n = n.
Proof. induction n as [|c n IH]; [done|]. simpl. by rewrite IH. Qed.

Lemma substring_app pre m s :
  String.substring 0 (String.length pre + m) (pre +:+ s) = pre +:+ String.substring 0 m s.
Proof. induction pre as [|c pre IH]; [done|]. simpl. rewrite IH. reflexivity. Qed.

Lemma substring_prefix n post : String.substring 0 (String.length n) (n +:+ post) = n.
Proof.
  induction n as [|c n IH]; simpl; [by destruct post|]. rewrite IH. reflexivity.
Qed.

Lemma lastIndexOf_from_absent n hay i last :
  includes n hay = false → lastIndexOf_from n hay i last = last.
Proof.
  revert i last. induction hay as [|c hay IH]; intros i last; cbn [includes lastIndexOf_from].
  - intros [-> _]%orb_false_iff. done.
  - intros [-> Hrest]%orb_false_iff. by apply IH.
Qed.

(** Where the needle occurs, [lastIndexOf] is the start of its last
    occurrence. *)
Lemma lastIndexOf_from_present n hay i last :
  includes n hay = true →
  ∃ pre suf,
    hay = pre +:+ suf
    ∧ String.prefix n suf = true
    ∧ (suf = "" ∨ includes n (after_first suf) = false)
    ∧ lastIndexOf_from n hay i last = Z.of_nat (i + String.length pre).
Proof.
  revert i last. induction hay as [|c hay IH]; intros i last Hinc.
  - exists "", "". cbn [includes] in Hinc. rewrite orb_false_r in Hinc.
    cbn [lastIndexOf_from]. rewrite Hinc.
    split; [done|]. split; [done|]. split; [by left|]. cbn. f_equal. lia.
  - cbn [lastIndexOf_from].
    destruct (includes n hay) eqn:Hrest.
    + destruct (IH (S i) (if String.prefix n (String c hay) then Z.of_nat i else last) eq_refl)
        as (pre & suf & -> & Hp & Hlater & ->).
      exists (String c pre), suf. split; [done|]. split; [done|]. split; [done|].
      cbn. f_equal. lia.
    + cbn [includes] in Hinc. rewrite Hrest, orb_false_r in Hinc. rewrite Hinc.
      exists "", (String c hay). split; [done|]. split; [done|]. split; [by right|].
      rewrite lastIndexOf_from_absent by done. cbn. f_equal. lia.
Qed.

Section BinPath.
Context `{Platform} (W : World) (this : Node.Delegate).

(** X7. The binary [serve] runs. With [sdkPath] the resolved location of
    the SDK, the one process spawned runs [<binPath>/.bin/firebase-functions]
    with the source directory as argument and working directory and the
    environment [serve] built. When [sdkPath] contains [node_modules],
    [binPath] is [sdkPath] up to the end of its last occurrence; when it
    contains none, [lastIndexOf] gives [-1] and [binPath] is the first eleven
    characters of [sdkPath]. *)
Theorem serve_runs_binary_of_last_node_modules
    (port : N) (config : RuntimeConfigValues) (envs : EnvironmentVariables)
    (h : Heap) (sdkPath : string) :
  require_resolve W "firebase-functions" [Node.sourceDir this] = inl sdkPath →
  let r := Node.serve W this port config envs h in
  ∃ binPath,
    List.filter is_spawn (trace_of r) =
      [EvSpawn (length (procs h))
         (path_join [binPath; ".bin"; "firebase-functions"])
         [Node.sourceDir this]
         {| spawn_cwd := Node.sourceDir this;
            spawn_env := Some (Node.serve_env W port config envs);
            spawn_stdio := ["ignore"; "pipe"; "inherit"] |}]
    ∧ if includes "node_modules" sdkPath then
        ∃ pre post,
          sdkPath = pre +:+ "node_modules" +:+ post
          ∧ binPath = pre +:+ "node_modules"
          ∧ includes "node_modules" ("ode_modules" +:+ post) = false
      else binPath = String.substring 0 11 sdkPath.
Proof.
  intros Hres. cbn zeta.
  exists (substring_to (lastIndexOf "node_modules" sdkPath + 12) sdkPath).
  split.
  { unfold Node.serve. rewrite bind_unfold. cbn [emit]. rewrite Hres.
    rewrite bind_unfold, spawn_run. reflexivity. }
  unfold lastIndexOf, substring_to.
  destruct (includes "node_modules" sdkPath) eqn:Hinc.
  - destruct (lastIndexOf_from_present "node_modules" sdkPath 0 (-1) Hinc)
      as (pre & suf & -> & Hp & Hlater & ->).
    destruct (prefix_split _ _ Hp) as [post ->].
    exists pre, post. split; [done|]. split.
    + replace (Z.to_nat (Z.of_nat (0 + String.length pre) + 12))
        with (String.length pre + String.length "node_modules") by (cbn; lia).
      rewrite substring_app. f_equal. apply substring_prefix.
    + by destruct Hlater as [?|?].
  - rewrite lastIndexOf_from_absent by done. reflexivity.
Qed.
End BinPath.

(** * Creating and validating a delegate *)

Lemma try_catch_unfold {A} (body : Run A) handler h :
  try_catch body handler h =
  match body h with
  | (h1, t1, Rejected e) => prefix_trace t1 (handler e h1)
  | settled => settled
  end.
Proof.
  unfold try_catch, prefix_trace, heap_of, trace_of, settled_of.
  destruct (body h) as [[h1 t1] [a|e|]]; try reflexivity.
  by destruct (handler e h1) as [[h2 t2] r].
Qed.

Lemma includes_self n : includes n n = true.
Proof.
  assert (Hp : String.prefix n n = true).
  { induction n as [|c n IH]; [done|]. simpl. by destruct (Ascii.ascii_dec c c). }
  revert Hp. generalize n at 2 4. intros s Hp. destruct s; cbn [includes]; by rewrite Hp.
Qed.

Lemma includes_end a n : includes n (a +:+ n) = true.
Proof. apply (includes_append a n n), includes_self. Qed.

Lemma includes_middle a n b : includes n (a +:+ n +:+ b) = true.
Proof. apply (includes_append a n (n +:+ b)), includes_here. Qed.

Section CreationFacts.
Context `{Platform} (I : Imports).

(** X11. A delegate is created only for its own ecosystem. Without a
    [package.json] in the source directory the node [tryCreateDelegate]
    resolves with [undefined], without asking for a runtime; without a
    [pubspec.yaml] the dart one does the same. A node delegate that is
    returned carries the identifiers of the context and the runtime
    [getRuntimeChoice] gave, which starts with [nodejs], and its version
    cache is empty; a dart delegate that is returned carries the declared
    runtime, or the latest dart runtime when none is declared, and that
    runtime is a supported runtime of the dart language. *)
Theorem tryCreateDelegate_only_for_own_ecosystem (context : DelegateContext) (h : Heap) :
  let packageJson := path_join [context_sourceDir context; "package.json"] in
  let pubspecYaml := path_join [context_sourceDir context; "pubspec.yaml"] in
  let node := Node.tryCreateDelegate I context h in
  let dart := Dart.tryCreateDelegate I context h in
  (fs_exists I packageJson = Resolved false →
   node = (h, [EvDebug "Customer code is not Node"], Resolved None))
  ∧ (fs_exists I pubspecYaml = Resolved false →
     dart = (h, [EvDebug "Customer code is not Dart code."], Resolved None))
  ∧ (∀ d, settled_of node = Resolved (Some d) →
       fs_exists I packageJson = Resolved true
       ∧ getRuntimeChoice I (context_sourceDir context) (context_runtime context)
         = inl (Node.runtime d)
       ∧ String.prefix "nodejs" (Node.runtime d) = true
       ∧ Node.projectId d = context_projectId context
       ∧ Node.projectDir d = context_projectDir context
       ∧ Node.sourceDir d = context_sourceDir context
       ∧ _sdkVersion (heap_of node) = None)
  ∧ (∀ d, settled_of dart = Resolved (Some d) →
       fs_exists I pubspecYaml = Resolved true
       ∧ Dart.runtime d = default (supported_latest I "dart") (context_runtime context)
       ∧ supported_isRuntime I (Dart.runtime d) = true
       ∧ supported_runtimeIsLanguage I (Dart.runtime d) "dart" = true
       ∧ Dart.projectId d = context_projectId context
       ∧ Dart.sourceDir d = context_sourceDir context
       ∧ _bin (heap_of dart) = "").
Proof.
  cbn zeta. split; [|split; [|split]].
  - intros Hno. unfold Node.tryCreateDelegate. rewrite bind_unfold. unfold await.
    rewrite Hno. reflexivity.
  - intros Hno. unfold Dart.tryCreateDelegate. rewrite bind_unfold. unfold await.
    rewrite Hno. reflexivity.
  - intros d. unfold Node.tryCreateDelegate. rewrite bind_unfold. unfold await.
    destruct (fs_exists I _) as [[|]|e|]; cbn [negb]; try discriminate.
    rewrite prefix_trace_nil.
    destruct (getRuntimeChoice I _ _) as [runtime|e]; [|discriminate].
    destruct (String.prefix "nodejs" runtime) eqn:Hp; cbn [negb]; [|discriminate].
    cbn. intros [= <-]. done.
  - intros d. unfold Dart.tryCreateDelegate. rewrite bind_unfold. unfold await.
    destruct (fs_exists I _) as [[|]|e|]; cbn [negb]; try discriminate.
    rewrite prefix_trace_nil. cbn zeta.
    destruct (supported_isRuntime I _) eqn:Hr; cbn [negb]; [|discriminate].
    destruct (supported_runtimeIsLanguage I _ _) eqn:Hl; cbn [negb]; [|discriminate].
    cbn. intros [= <-]. done.
Qed.

(** X12. [validate] of the dart delegate reports an unreadable manifest by
    name. The call touches nothing and logs nothing, resolves exactly when
    [pubspec.yaml] of the source directory is readable, and otherwise rejects
    with a [FirebaseError] whose message contains the path of that file and
    the message of the error [fs.access] gave; the bare system error is never
    passed on. *)
Theorem dart_validate_names_the_manifest (this : Dart.Delegate) (h : Heap) :
  let pubspecYaml := path_join [Dart.sourceDir this; "pubspec.yaml"] in
  let r := Dart.validate I this h in
  heap_of r = h
  ∧ trace_of r = []
  ∧ (settled_of r = Resolved tt ↔ fs_access I pubspecYaml = Resolved tt)
  ∧ (∀ e, settled_of r = Rejected e →
       ∃ err, fs_access I pubspecYaml = Rejected err
              ∧ e = FirebaseError (Dart.unreadable_pubspec pubspecYaml (error_message I err))
              ∧ includes pubspecYaml (message_of e) = true
              ∧ includes (error_message I err) (message_of e) = true).
Proof.
  cbn zeta. unfold Dart.validate. cbn zeta. rewrite try_catch_unfold. unfold await.
  destruct (fs_access I _) as [[]|err|]; cbn; repeat split; try done.
  intros e [= <-]. exists err. split; [done|]. split; [done|].
  unfold Dart.unreadable_pubspec. cbn [message_of]. split.
  - apply (includes_middle "Failed to read pubspec.yaml at ").
  - apply (includes_append "Failed to read pubspec.yaml at ").
    apply (includes_append (path_join [Dart.sourceDir this; "pubspec.yaml"])).
    apply (includes_end ": ").
Qed.

End CreationFacts.

Section Lifecycle.
Context `{Platform} (I : Imports).

Lemma node_created context h d :
  settled_of (Node.tryCreateDelegate I context h) = Resolved (Some d) →
  Node.tryCreateDelegate I context h = (with_sdkVersion None h, [], Resolved (Some d))
  ∧ Node.sourceDir d = context_sourceDir context.
Proof.
  unfold Node.tryCreateDelegate. rewrite bind_unfold. unfold await.
  destruct (fs_exists I _) as [[|]|e|]; cbn [negb]; try discriminate.
  rewrite prefix_trace_nil.
  destruct (getRuntimeChoice I _ _) as [runtime|e]; [|discriminate].
  destruct (String.prefix "nodejs" runtime) eqn:Hp; cbn [negb]; [|discriminate].
  cbn. intros [= <-]. done.
Qed.

Lemma validate_run W this h :
  Node.validate I W this h =
  (with_sdkVersion (Some (Node.resolved_version W this h)) h,
   lookup_trace this h,
   let v := Node.resolved_version W this h in
   match checkFunctionsSDKVersion I v with
   | Some e => Rejected e
   | None =>
       match packageJsonIsValid I
               (path_relative I (Node.projectDir this) (Node.sourceDir this))
               (Node.sourceDir this) (Node.projectDir this) with
       | Some e => Rejected e
       | None => Resolved tt
       end
   end).
Proof.
  unfold Node.validate. rewrite bind_unfold, sdkVersion_run. cbn zeta.
  destruct (checkFunctionsSDKVersion I _) as [e|].
  - unfold prefix_trace. cbn. by rewrite app_nil_r.
  - destruct (packageJsonIsValid I _ _ _) as [e|];
      unfold prefix_trace; cbn; by rewrite app_nil_r.
Qed.

Lemma discoverBuild_cached_no_lookup W this config env h v :
  _sdkVersion h = Some v →
  count is_lookup (trace_of (Node.discoverBuild W this config env h)) = 0.
Proof.
  intros Hc. rewrite discoverBuild_unfold. cbn zeta.
  rewrite prefix_trace_trace, count_app.
  unfold lookup_trace at 1. rewrite Hc. cbn [count List.filter length Nat.add].
  destruct (negb _).
  { rewrite parseTriggers_run. done. }
  destruct (semver_lt _ _).
  { rewrite parseTriggers_run. done. }
  apply count_none.
  eapply Forall_impl; [apply emits_only_discover_gated|]. by intros [].
Qed.

(** X10. One lookup of the SDK version per node delegate. For a delegate
    that [tryCreateDelegate] returned, whatever the heap held before,
    [validate] performs the lookup of the declared SDK version, whether it
    then resolves or rejects, and a later [discoverBuild] performs none: its
    version gate works on the version that [validate] saw, also when the
    declared version has changed in between. *)
Theorem sdk_version_looked_up_once_per_delegate
    (W1 W2 : World) (context : DelegateContext) (d : Node.Delegate)
    (config : RuntimeConfigValues) (env : EnvironmentVariables) (h : Heap) :
  settled_of (Node.tryCreateDelegate I context h) = Resolved (Some d) →
  let created := Node.tryCreateDelegate I context h in
  let validated := Node.validate I W1 d (heap_of created) in
  let discovered := Node.discoverBuild W2 d config env (heap_of validated) in
  let v := default "" (getFunctionsSDKVersion W1 (context_sourceDir context)) in
  trace_of created = []
  ∧ trace_of validated = [EvGetFunctionsSDKVersion (context_sourceDir context)]
  ∧ count is_lookup (trace_of discovered) = 0
  ∧ _sdkVersion (heap_of validated) = Some v
  ∧ Node.resolved_version W2 d (heap_of validated) = v
  ∧ procs (heap_of validated) = procs h.
Proof.
  intros Hcreated. cbn zeta.
  destruct (node_created context h d Hcreated) as [-> Hdir].
  cbn [heap_of trace_of fst snd].
  rewrite validate_run. cbn [heap_of trace_of fst snd].
  unfold lookup_trace, Node.resolved_version. cbn. rewrite Hdir.
  split; [done|]. split; [done|].
  split; [|done].
  by apply (discoverBuild_cached_no_lookup W2 d config env _
              (default "" (getFunctionsSDKVersion W1 (context_sourceDir context)))).
Qed.

End Lifecycle.

(** * Enabling Cloud Build *)

Lemma append_assoc (a b c : string) : (a +:+ b) +:+ c = a +:+ (b +:+ c).
Proof.
  induction a as [|x a IH]; [done|].
  change (String x ((a +:+ b) +:+ c) = String x (a +:+ (b +:+ c))). by rewrite IH.
Qed.

Lemma includes_here2 x y rest : includes (x +:+ y) (x +:+ y +:+ rest) = true.
Proof. rewrite <- (append_assoc x y rest). apply includes_here. Qed.

Lemma includes_here3 x y z rest :
  includes (x +:+ y +:+ z) (x +:+ y +:+ z +:+ rest) = true.
Proof.
  rewrite <- (append_assoc y z rest), <- (append_assoc x (y +:+ z) rest).
  apply includes_here.
Qed.

Section EnablementFacts.
Context (I : Imports) (bold : string → string).

(** X5. [ensureCloudBuildEnabled] translates the errors of the API
    enablement. The call settles as [ensure] does, except that a rejection
    with a billing error becomes the billing notice, also when its status is
    [PERMISSION_DENIED], and a rejection with that status that is no billing
    error becomes the permission notice; any other error is passed on as it
    is. The billing notice contains the usage page of the project, the
    permission notice the Cloud Build page of the project and the project
    name as [clc.bold] renders it. *)
Theorem ensureCloudBuildEnabled_translates_api_errors (projectId : string) (h : Heap) :
  let r := Ensure.ensureCloudBuildEnabled I bold projectId h in
  let answer := ensure I projectId "cloudbuild.googleapis.com" "functions" in
  heap_of r = h
  ∧ trace_of r = []
  ∧ settled_of r =
      match answer with
      | Rejected e =>
          Rejected (if isBillingError I e then Ensure.nodeBillingError projectId
                    else if bool_decide (error_status I e = Some "PERMISSION_DENIED")
                         then Ensure.nodePermissionError bold projectId
                         else e)
      | settled => settled
      end
  ∧ includes ("https://console.firebase.google.com/project/" +:+ projectId +:+ "/usage/details")
      (message_of (Ensure.nodeBillingError projectId)) = true
  ∧ includes ("cloudbuild.googleapis.com?project=" +:+ projectId)
      (message_of (Ensure.nodePermissionError bold projectId)) = true
  ∧ includes (bold projectId)
      (message_of (Ensure.nodePermissionError bold projectId)) = true.
Proof.
  cbn zeta. unfold Ensure.ensureCloudBuildEnabled. rewrite try_catch_unfold.
  unfold await, Ensure.CLOUD_BUILD_API, Ensure.isPermissionError.
  split; [|split; [|split; [|split; [|split]]]].
  - destruct (ensure I _ _ _) as [[]|e|]; [done| |done].
    destruct (isBillingError I e); [done|]. by case_bool_decide.
  - destruct (ensure I _ _ _) as [[]|e|]; [done| |done].
    destruct (isBillingError I e); [done|]. by case_bool_decide.
  - destruct (ensure I _ _ _) as [[]|e|]; [done| |done].
    destruct (isBillingError I e); [done|]. by case_bool_decide.
  - unfold Ensure.nodeBillingError. cbn [message_of].
    match goal with |- includes ?n (?a +:+ ?b +:+ ?c +:+ ?d +:+ ?rest) = true =>
      apply (includes_append a n), (includes_append b n), (includes_append c n),
        (includes_append d n) end.
    apply includes_here3.
  - unfold Ensure.nodePermissionError. cbn [message_of].
    match goal with
    | |- includes ?n (?a +:+ ?b +:+ ?c +:+ ?d +:+ ?e +:+ ?f +:+ ?g +:+ ?rest) = true =>
      apply (includes_append a n), (includes_append b n), (includes_append c n),
        (includes_append d n), (includes_append e n), (includes_append f n),
        (includes_append g n)
    end.
    apply (includes_append "https://console.cloud.google.com/apis/library/").
    exact (includes_here2 "cloudbuild.googleapis.com?project=" projectId _).
  - unfold Ensure.nodePermissionError. cbn [message_of].
    match goal with |- includes ?n (?a +:+ ?rest) = true =>
      apply (includes_append a n) end.
    apply includes_here.
Qed.
End EnablementFacts.

(** * Concrete runs *)

Example outdated_sdk_warns_once :
  trace_of (Node.discoverBuild (Sample.world (Some "3.10.0")) Sample.node_delegate [] ∅
              empty_heap) =
  [EvGetFunctionsSDKVersion "/app/functions";
   EvWarning "functions"
     "You are using an old version of firebase-functions SDK (3.10.0). Please update firebase-functions SDK to >=3.20.0";
   EvParseTriggers "demo" "/app/functions" "nodejs16"].
Proof. reflexivity. Qed.

Example unparsable_sdk_is_silent :
  trace_of (Node.discoverBuild (Sample.world (Some "latest")) Sample.node_delegate [] ∅
              empty_heap) =
  [EvGetFunctionsSDKVersion "/app/functions";
   EvDebug "Could not parse firebase-functions version 'latest' into semver. Falling back to parseTriggers.";
   EvParseTriggers "demo" "/app/functions" "nodejs16"].
Proof. reflexivity. Qed.

Example supported_sdk_probes_the_server :
  List.filter (λ ev, negb (is_spawn ev))
    (trace_of (Node.discoverBuild (Sample.world (Some "3.25.0")) Sample.node_delegate [] ∅
                 empty_heap)) =
  [EvGetFunctionsSDKVersion "/app/functions";
   EvDetectFromYaml "/app/functions" "demo" "nodejs16";
   EvGetPort;
   EvRequireResolve "firebase-functions" ["/app/functions"];
   EvDetectFromPort 8000 "demo" "nodejs16";
   EvTeardown;
   EvFetch "http://localhost:8000/__/quitquitquit";
   EvSetTimeout 10000].
Proof. reflexivity. Qed.

(** C2 at a node source tree with SDK 3.25.0 and a manifest on disk. *)
Lemma static_discovery_witness :
  let W := with_detectFromYaml (Resolved (Some Sample.a_build)) (Sample.world (Some "3.25.0")) in
  gate_passes W (NodeDelegate Sample.node_delegate) empty_heap = true
  ∧ detectFromYaml W = Resolved (Some Sample.a_build)
  ∧ count is_spawn
      (trace_of (discoverBuild W (NodeDelegate Sample.node_delegate) [] ∅ empty_heap)) = 0.
Proof.
  cbn zeta.
  assert (Hg : gate_passes
                 (with_detectFromYaml (Resolved (Some Sample.a_build))
                    (Sample.world (Some "3.25.0")))
                 (NodeDelegate Sample.node_delegate) empty_heap = true) by reflexivity.
  split; [exact Hg|]. split; [reflexivity|].
  exact (proj1 (proj2 (proj2
           (static_discovery_short_circuits _ _ [] ∅ _ Sample.a_build Hg eq_refl)))).
Defined.

(** C3 at a node source tree with SDK 3.25.0 and no manifest. *)
Lemma live_discovery_witness :
  let W := Sample.world (Some "3.25.0") in
  gate_passes W (NodeDelegate Sample.node_delegate) empty_heap = true
  ∧ detectFromYaml W = Resolved None
  ∧ getPort W = Resolved 8000%N
  ∧ detectFromPort W 8000 ≠ Pending
  ∧ count is_teardown
      (trace_of (Node.discoverBuild W Sample.node_delegate [] ∅ empty_heap)) = 1.
Proof.
  cbn zeta.
  assert (Hg : gate_passes (Sample.world (Some "3.25.0"))
                 (NodeDelegate Sample.node_delegate) empty_heap = true) by reflexivity.
  assert (Hp : detectFromPort (Sample.world (Some "3.25.0")) 8000 ≠ Pending)
    by discriminate.
  split; [exact Hg|]. split; [reflexivity|]. split; [reflexivity|]. split; [exact Hp|].
  destruct (live_discovery_order (Sample.world (Some "3.25.0")) Sample.node_delegate [] ∅
              empty_heap 8000
              "/app/functions/node_modules/firebase-functions/lib/index.js"
              Hg eq_refl eq_refl eq_refl Hp)
    as (pid & command & opts & h' & rest & _ & _ & _ & _ & _ & _ & Hone & _).
  exact Hone.
Defined.



(** C5, amended, at the sample host and the host with one more variable. *)
Lemma serve_child_environment_witness :
  Sample.host !! "HOME" = other_host !! "HOME"
  ∧ Sample.host !! "PATH" = other_host !! "PATH"
  ∧ Sample.host !! "NODE_ENV" = other_host !! "NODE_ENV"
  ∧ spawned_environments Sample.host
      (trace_of (Node.serve (with_process_env Sample.host (Sample.world None))
                   Sample.node_delegate 8000 [] ∅ empty_heap))
    = spawned_environments other_host
        (trace_of (Node.serve (with_process_env other_host (Sample.world None))
                     Sample.node_delegate 8000 [] ∅ empty_heap)).
Proof.
  assert (H1 : Sample.host !! "HOME" = other_host !! "HOME") by reflexivity.
  assert (H2 : Sample.host !! "PATH" = other_host !! "PATH") by reflexivity.
  assert (H3 : Sample.host !! "NODE_ENV" = other_host !! "NODE_ENV") by reflexivity.
  split; [exact H1|]. split; [exact H2|]. split; [exact H3|].
  exact (proj1 (serve_child_environment_explicit (Sample.world None) Sample.host other_host
                  Sample.node_delegate Sample.dart_delegate 8000 [] ∅ empty_heap H1 H2 H3)).
Defined.

(** C5, as stated, fails on the dart delegate: two hosts that agree on
    HOME, PATH and NODE_ENV and differ on FIREBASE_TOKEN give the generator
    child of [discoverBuild] different environments, each the whole host
    environment. *)
Lemma dart_children_inherit_host_environment :
  let child host :=
    spawned_environments host
      (trace_of (Dart.discoverBuild (with_process_env host (Sample.world None))
                   Sample.dart_delegate [] ∅ empty_heap)) in
  Sample.host !! "HOME" = other_host !! "HOME"
  ∧ Sample.host !! "PATH" = other_host !! "PATH"
  ∧ Sample.host !! "NODE_ENV" = other_host !! "NODE_ENV"
  ∧ child Sample.host = [Sample.host]
  ∧ child other_host = [other_host]
  ∧ child Sample.host ≠ child other_host.
Proof.
  cbn zeta. do 5 (split; [reflexivity|]).
  intros Heq.
  apply (f_equal (λ l, l !! 0 ≫= (.!! "FIREBASE_TOKEN"))) in Heq.
  vm_compute in Heq. discriminate Heq.
Qed.

(** C6, amended, at a generator that exits with code 1. *)
Lemma generator_failure_witness :
  let W := with_build_runner (GenExit (ExitCode 1)) (Sample.world None) in
  detectFromYaml W = Resolved None
  ∧ settled_of (Dart.discoverBuild W Sample.dart_delegate [] ∅ empty_heap) =
      Rejected (FirebaseError (Dart.build_runner_failed 1)).
Proof.
  cbn zeta. split; [reflexivity|].
  apply (proj1 (generator_failure_rejects
                  (with_build_runner (GenExit (ExitCode 1)) (Sample.world None))
                  Sample.dart_delegate [] ∅ empty_heap eq_refl) 1%Z eq_refl).
  discriminate.
Defined.

(** C6, as stated, fails: when the generator exits with code 1 the error
    names the exit code, and the expected manifest path is no part of its
    message. *)
Lemma build_runner_failure_omits_path :
  let W := with_build_runner (GenExit (ExitCode 1)) (Sample.world None) in
  let message :=
    "build_runner failed with exit code 1. Make sure your Dart project is properly configured." in
  detectFromYaml W = Resolved None
  ∧ settled_of (Dart.discoverBuild W Sample.dart_delegate [] ∅ empty_heap) =
      Rejected (FirebaseError message)
  ∧ Dart.yamlPath Sample.dart_delegate = "/app/functions/.dart_tool/firebase/functions.yaml"
  ∧ includes (Dart.yamlPath Sample.dart_delegate) message = false.
Proof. cbn zeta. repeat split; reflexivity. Qed.



(** C8 at three reads whose lookups would answer 3.25.0, 4.0.0 and nothing. *)
Lemma sdkVersion_cached_witness :
  _sdkVersion empty_heap = None
  ∧ settled_of
      (reads Sample.node_delegate
         [Sample.world (Some "3.25.0"); Sample.world (Some "4.0.0"); Sample.world None]
         empty_heap)
    = Resolved ["3.25.0"; "3.25.0"; "3.25.0"].
Proof.
  split; [reflexivity|].
  exact (proj1 (proj2 (proj2
           (sdkVersion_lazy_cached Sample.node_delegate (Sample.world (Some "3.25.0"))
              [Sample.world (Some "4.0.0"); Sample.world None] empty_heap eq_refl)))).
Defined.





(** X13 at the teardown of a dart [watch] whose first child a signal has
    ended: the SIGKILL is attempted and the teardown never settles. *)
Lemma watch_teardown_escalation_witness :
  let W := Sample.world None in
  let k := DartTeardown (Dart.WatchTeardown 0 1) in
  let h :=
    heap_of ((Dart.watch Sample.dart_delegate ≫=
              λ _, let_exit 0 (Some (ExitSignal "SIGSEGV"))) empty_heap) in
  handles_valid k h
  ∧ EvKill 0 "SIGKILL" ∈ trace_of (invoke W k h)
  ∧ unreachable (proc_at 0 h)
  ∧ settled_of (invoke W k h) = Pending.
Proof.
  intros W k h.
  assert (Hv : handles_valid k h) by (split; apply Nat.ltb_lt; reflexivity).
  assert (Hin : EvKill 0 "SIGKILL" ∈ trace_of (invoke W k h)).
  { apply list_elem_of_In. vm_compute. auto 10. }
  split; [exact Hv|]. split; [exact Hin|].
  exact (proj2 (proj1 (watch_teardown_never_escalates W 0 1 h Hv) 0 Hin)).
Defined.

(** X14 at the teardown of a dart [watch] whose children ignore SIGTERM. *)
Lemma watch_teardown_orphan_witness :
  let W := with_exits_during_grace (λ _, None) (Sample.world None) in
  let k := DartTeardown (Dart.WatchTeardown 0 1) in
  let h := heap_of (Dart.watch Sample.dart_delegate empty_heap) in
  responsive W k h
  ∧ running (proc_at 0 h) = true
  ∧ Dart.signalable (proc_at 0 h) = true
  ∧ exits_during_grace W 0 = None
  ∧ settled_of (invoke W k h) = Resolved tt
  ∧ running (proc_at 0 (heap_of (invoke W k h))) = true.
Proof.
  cbn zeta.
  assert (Hr : responsive (with_exits_during_grace (λ _, None) (Sample.world None))
                 (DartTeardown (Dart.WatchTeardown 0 1))
                 (heap_of (Dart.watch Sample.dart_delegate empty_heap))).
  { split; eexists; (split; [reflexivity|reflexivity]). }
  split; [exact Hr|]. do 3 (split; [reflexivity|]).
  destruct (watch_teardown_leaves_ignoring_child_running
              (with_exits_during_grace (λ _, None) (Sample.world None)) 0 1 0 _
              Hr (or_introl eq_refl) eq_refl eq_refl eq_refl) as (Hs & Hrun & _).
  split; [exact Hs|exact Hrun].
Defined.

(** X7 at an SDK below [/app/functions/node_modules]. *)
Lemma serve_binary_witness :
  require_resolve (Sample.world None) "firebase-functions" ["/app/functions"]
    = inl "/app/functions/node_modules/firebase-functions/lib/index.js"
  ∧ ∃ binPath,
      List.filter is_spawn
        (trace_of (Node.serve (Sample.world None) Sample.node_delegate 8000 [] ∅ empty_heap))
      = [EvSpawn 0 (path_join [binPath; ".bin"; "firebase-functions"]) ["/app/functions"]
           {| spawn_cwd := "/app/functions";
              spawn_env := Some (Node.serve_env (Sample.world None) 8000 [] ∅);
              spawn_stdio := ["ignore"; "pipe"; "inherit"] |}].
Proof.
  split; [reflexivity|].
  destruct (serve_runs_binary_of_last_node_modules (Sample.world None) Sample.node_delegate
              8000 [] ∅ empty_heap
              "/app/functions/node_modules/firebase-functions/lib/index.js" eq_refl)
    as (binPath & Hspawn & _).
  exists binPath. exact Hspawn.
Defined.

(** X9 at a server child that exits on the quit request. *)
Lemma serve_teardown_timer_witness :
  let W := Sample.world (Some "3.25.0") in
  let h := heap_of (Node.serve W Sample.node_delegate 8000 [] ∅ empty_heap) in
  let r := invoke W (NodeTeardown (Node.ServeTeardown 0 8000)) h in
  0 < length (procs h)
  ∧ fetch W (Node.quit_url 8000) = Resolved tt
  ∧ running (proc_at 0 h) = true
  ∧ child_after_quit W = ReactExit (ExitCode 0)
  ∧ timers (heap_of r) = [{| timer_ms := 10000; timer_target := 0 |}].
Proof.
  cbn zeta.
  assert (Hv : 0 < length (procs (heap_of (Node.serve (Sample.world (Some "3.25.0"))
                                             Sample.node_delegate 8000 [] ∅ empty_heap))))
    by (apply Nat.ltb_lt; reflexivity).
  split; [exact Hv|]. do 3 (split; [reflexivity|]).
  exact (proj1 (proj2 (proj2
           (serve_teardown_never_clears_its_timer (Sample.world (Some "3.25.0")) 0 8000
              (ExitCode 0) _ Hv eq_refl eq_refl eq_refl)))).
Defined.

(** X10 at a source tree whose SDK is 3.25.0 at [validate] and 4.0.0 at
    [discoverBuild]. *)
Lemma sdk_version_lifecycle_witness :
  let created := Node.tryCreateDelegate Sample.imports Sample.context empty_heap in
  let validated :=
    Node.validate Sample.imports (Sample.world (Some "3.25.0")) Sample.node_delegate
      (heap_of created) in
  settled_of created = Resolved (Some Sample.node_delegate)
  ∧ trace_of validated = [EvGetFunctionsSDKVersion "/app/functions"]
  ∧ count is_lookup
      (trace_of (Node.discoverBuild (Sample.world (Some "4.0.0")) Sample.node_delegate [] ∅
                   (heap_of validated))) = 0.
Proof.
  cbn zeta.
  assert (Hc : settled_of (Node.tryCreateDelegate Sample.imports Sample.context empty_heap)
               = Resolved (Some Sample.node_delegate)) by reflexivity.
  split; [exact Hc|].
  destruct (sdk_version_looked_up_once_per_delegate Sample.imports
              (Sample.world (Some "3.25.0")) (Sample.world (Some "4.0.0"))
              Sample.context Sample.node_delegate [] ∅ empty_heap Hc)
    as (_ & Hv & Hd & _).
  split; [exact Hv|exact Hd].
Defined.
